(** * qe-compiler: configuration builders, diagnostics and resource paths

    A shallow embedding of the configuration layer of the qe-compiler
    ([QEConfig.h], [EnvVarConfigBuilder.cpp], [CLIConfigBuilder.cpp]), of
    the error reporting API ([errors.cpp]), of the resource directory lookup
    ([QEC.cpp]), of the context-scoped target binding declared in
    [TargetSystemInfo.h], and of the command-line options declared by the
    [QEConfigCLOptions] constructor.

    Mutable C++ objects are modelled by explicit state passing: a builder
    stage is a function from the configuration record to a result and the
    updated record; text written to [llvm::errs()] is returned as a list of
    strings; function-local statics are fields of a [Statics] record. *)

From Stdlib Require Import ZArith NArith Ascii String List Lia.
From stdpp Require Import base option list strings gmap.

Local Open Scope string_scope.

(** ** Strings and characters *)

(** The line feed, written as the escape backslash-n in the C++ sources. *)
Definition nl : string := String (ascii_of_nat 10) EmptyString.

(** The double quote character, escaped inside C++ string literals. *)
Definition dquote : string := String (ascii_of_nat 34) EmptyString.

(** ** [llvm::Error] and [llvm::Expected] *)

(** [std::error_code]: either LLVM's [inconvertibleErrorCode()] or an
    OS-level code. *)
Inductive error_code : Type :=
  | inconvertibleErrorCode
  | os_error_code (value : Z).

(** The payload built by [llvm::createStringError]. *)
Record StringError : Type := mkStringError {
  convertToErrorCode : error_code;
  getMessage : string
}.

(** [llvm::Error]: [None] is [llvm::Error::success()]. *)
Definition Error : Type := option StringError.

Definition success : Error := None.

Definition createStringError (ec : error_code) (msg : string) : Error :=
  Some (mkStringError ec msg).

(** [std::optional::has_value]. *)
Definition has_value {A : Type} (o : option A) : bool :=
  match o with Some _ => true | None => false end.

(** [if (auto err = ...)]: an [llvm::Error] converts to [true] when it holds
    a failure. *)
Definition isFailure (e : Error) : bool :=
  match e with Some _ => true | None => false end.

Inductive Expected (T : Type) : Type :=
  | Value (t : T)
  | Failure (e : StringError).
Arguments Value {T} t.
Arguments Failure {T} e.

(** ** Enumerations of [QEConfig.h] *)

Module QEVerbosity.
Inductive t : Type := Error | Warn | Info | Debug | _VerbosityCnt.
#[global] Instance eq_dec : EqDecision t.
Proof. solve_decision. Defined.
End QEVerbosity.

Module EmitAction.
Inductive t : Type :=
  | Undetected | None | AST | ASTPretty | MLIR | Bytecode | WaveMem | QEM | QEQEM.
#[global] Instance eq_dec : EqDecision t.
Proof. solve_decision. Defined.
End EmitAction.

Module FileExtension.
Inductive t : Type :=
  | None | AST | ASTPretty | QASM | MLIR | Bytecode | WaveMem | QEM | QEQEM.
#[global] Instance eq_dec : EqDecision t.
Proof. solve_decision. Defined.
End FileExtension.

Module InputType.
Inductive t : Type := Undetected | QASM | MLIR | Bytecode.
#[global] Instance eq_dec : EqDecision t.
Proof. solve_decision. Defined.
End InputType.

(** The extension tables are declared in [QEConfig.h]
    ([getExtension], [fileExtensionToInputType], [fileExtensionToAction]);
    their definitions live in a translation unit that is not embedded
    here, so the resolution algorithms below take them as an interface. *)
Class ExtensionTables : Type := {
  getExtension : string -> FileExtension.t;
  fileExtensionToInputType : FileExtension.t -> InputType.t;
  fileExtensionToAction : FileExtension.t -> EmitAction.t
}.

(** ** The configuration record *)

(** Opaque MLIR values carried through the configuration. *)
Inductive DebugConfig : Type := mkDebugConfig (id : nat).
Inductive PassPipelineFn : Type := mkPassPipelineFn (id : nat).

(** The fields of the base class [mlir::MlirOptMainConfig] that the
    builders read or write. *)
Record MlirOptMainConfig : Type := mkMlirOptMainConfig {
  allowUnregisteredDialectsFlag : bool;
  dumpPassPipelineFlag : bool;
  emitBytecodeFlag : bool;
  emitBytecodeVersion : option Z;
  irdlFileFlag : string;
  enableDebuggerActionHookFlag : bool;
  useExplicitModuleFlag : bool;
  runReproducerFlag : bool;
  showDialectsFlag : bool;
  splitInputFileFlag : bool;
  verifyDiagnosticsFlag : bool;
  verifyPassesFlag : bool;
  verifyRoundtripFlag : bool;
  debugConfig : DebugConfig;
  passPipelineCallback : PassPipelineFn
}.

(** [struct QEConfig : mlir::MlirOptMainConfig]. [maxThreads] is an
    [unsigned int], kept in [Z] within [0, 2^32). *)
Record QEConfig : Type := mkQEConfig {
  base : MlirOptMainConfig;
  targetName : option string;
  targetConfigPath : option string;
  inputType : InputType.t;
  emitAction : EmitAction.t;
  verbosityLevel : QEVerbosity.t;
  addTargetPassesFlag : bool;
  showTargetsFlag : bool;
  showPayloadsFlag : bool;
  showConfigFlag : bool;
  payloadName : string;
  emitPlaintextPayloadFlag : bool;
  includeSourceFlag : bool;
  compileTargetIRFlag : bool;
  bypassPayloadTargetCompilationFlag : bool;
  passPlugins : list string;
  dialectPlugins : list string;
  maxThreads : option Z
}.

(** The default member initialisers of [MlirOptMainConfig]. *)
Definition MlirOptMainConfig_default : MlirOptMainConfig :=
  {| allowUnregisteredDialectsFlag := false;
     dumpPassPipelineFlag := false;
     emitBytecodeFlag := false;
     emitBytecodeVersion := None;
     irdlFileFlag := "";
     enableDebuggerActionHookFlag := false;
     useExplicitModuleFlag := false;
     runReproducerFlag := false;
     showDialectsFlag := false;
     splitInputFileFlag := false;
     verifyDiagnosticsFlag := false;
     verifyPassesFlag := true;
     verifyRoundtripFlag := false;
     debugConfig := mkDebugConfig 0;
     passPipelineCallback := mkPassPipelineFn 0 |}.

(** The default member initialisers of [QEConfig]. *)
Definition QEConfig_default : QEConfig :=
  {| base := MlirOptMainConfig_default;
     targetName := None;
     targetConfigPath := None;
     inputType := InputType.Undetected;
     emitAction := EmitAction.Undetected;
     verbosityLevel := QEVerbosity.Warn;
     addTargetPassesFlag := true;
     showTargetsFlag := false;
     showPayloadsFlag := false;
     showConfigFlag := false;
     payloadName := "-";
     emitPlaintextPayloadFlag := false;
     includeSourceFlag := false;
     compileTargetIRFlag := false;
     bypassPayloadTargetCompilationFlag := false;
     passPlugins := [];
     dialectPlugins := [];
     maxThreads := None |}.

(** *** Setters and getters of [QEConfig] *)

Definition setTargetName (name : string) (c : QEConfig) : QEConfig :=
  mkQEConfig (base c) (Some name) (targetConfigPath c) (inputType c)
    (emitAction c) (verbosityLevel c) (addTargetPassesFlag c)
    (showTargetsFlag c) (showPayloadsFlag c) (showConfigFlag c)
    (payloadName c) (emitPlaintextPayloadFlag c) (includeSourceFlag c)
    (compileTargetIRFlag c) (bypassPayloadTargetCompilationFlag c)
    (passPlugins c) (dialectPlugins c) (maxThreads c).

Definition getTargetName (c : QEConfig) : option string :=
  match targetName c with Some v => Some v | None => None end.

Definition setTargetConfigPath (path : string) (c : QEConfig) : QEConfig :=
  mkQEConfig (base c) (targetName c) (Some path) (inputType c)
    (emitAction c) (verbosityLevel c) (addTargetPassesFlag c)
    (showTargetsFlag c) (showPayloadsFlag c) (showConfigFlag c)
    (payloadName c) (emitPlaintextPayloadFlag c) (includeSourceFlag c)
    (compileTargetIRFlag c) (bypassPayloadTargetCompilationFlag c)
    (passPlugins c) (dialectPlugins c) (maxThreads c).

Definition getTargetConfigPath (c : QEConfig) : option string :=
  match targetConfigPath c with Some v => Some v | None => None end.

Definition setInputType (type : InputType.t) (c : QEConfig) : QEConfig :=
  mkQEConfig (base c) (targetName c) (targetConfigPath c) type
    (emitAction c) (verbosityLevel c) (addTargetPassesFlag c)
    (showTargetsFlag c) (showPayloadsFlag c) (showConfigFlag c)
    (payloadName c) (emitPlaintextPayloadFlag c) (includeSourceFlag c)
    (compileTargetIRFlag c) (bypassPayloadTargetCompilationFlag c)
    (passPlugins c) (dialectPlugins c) (maxThreads c).

Definition getInputType (c : QEConfig) : InputType.t := inputType c.

Definition setEmitAction (action : EmitAction.t) (c : QEConfig) : QEConfig :=
  mkQEConfig (base c) (targetName c) (targetConfigPath c) (inputType c)
    action (verbosityLevel c) (addTargetPassesFlag c)
    (showTargetsFlag c) (showPayloadsFlag c) (showConfigFlag c)
    (payloadName c) (emitPlaintextPayloadFlag c) (includeSourceFlag c)
    (compileTargetIRFlag c) (bypassPayloadTargetCompilationFlag c)
    (passPlugins c) (dialectPlugins c) (maxThreads c).

Definition getEmitAction (c : QEConfig) : EmitAction.t := emitAction c.

Definition setVerbosityLevel (level : QEVerbosity.t) (c : QEConfig) : QEConfig :=
  mkQEConfig (base c) (targetName c) (targetConfigPath c) (inputType c)
    (emitAction c) level (addTargetPassesFlag c)
    (showTargetsFlag c) (showPayloadsFlag c) (showConfigFlag c)
    (payloadName c) (emitPlaintextPayloadFlag c) (includeSourceFlag c)
    (compileTargetIRFlag c) (bypassPayloadTargetCompilationFlag c)
    (passPlugins c) (dialectPlugins c) (maxThreads c).

Definition getVerbosityLevel (c : QEConfig) : QEVerbosity.t := verbosityLevel c.

(** [setPassPlugins] assigns the member [dialectPlugins], and
    [getPassPlugins] returns it, exactly as written in [QEConfig.h]. *)
Definition setPassPlugins (plugins : list string) (c : QEConfig) : QEConfig :=
  mkQEConfig (base c) (targetName c) (targetConfigPath c) (inputType c)
    (emitAction c) (verbosityLevel c) (addTargetPassesFlag c)
    (showTargetsFlag c) (showPayloadsFlag c) (showConfigFlag c)
    (payloadName c) (emitPlaintextPayloadFlag c) (includeSourceFlag c)
    (compileTargetIRFlag c) (bypassPayloadTargetCompilationFlag c)
    (passPlugins c) plugins (maxThreads c).

Definition getPassPlugins (c : QEConfig) : list string := dialectPlugins c.

Definition setDialectPlugins (plugins : list string) (c : QEConfig) : QEConfig :=
  mkQEConfig (base c) (targetName c) (targetConfigPath c) (inputType c)
    (emitAction c) (verbosityLevel c) (addTargetPassesFlag c)
    (showTargetsFlag c) (showPayloadsFlag c) (showConfigFlag c)
    (payloadName c) (emitPlaintextPayloadFlag c) (includeSourceFlag c)
    (compileTargetIRFlag c) (bypassPayloadTargetCompilationFlag c)
    (passPlugins c) plugins (maxThreads c).

Definition getDialectPlugins (c : QEConfig) : list string := dialectPlugins c.

(** The range of the C++ type [int]. *)
Definition INT_MIN : Z := - 2 ^ 31.
Definition INT_MAX : Z := 2 ^ 31 - 1.

(** The conversion of an [int] to [unsigned int]. *)
Definition to_unsigned (v : Z) : Z := v mod 2 ^ 32.

Definition setMaxThreads (maxThreads_ : Z) (c : QEConfig) : QEConfig :=
  mkQEConfig (base c) (targetName c) (targetConfigPath c) (inputType c)
    (emitAction c) (verbosityLevel c) (addTargetPassesFlag c)
    (showTargetsFlag c) (showPayloadsFlag c) (showConfigFlag c)
    (payloadName c) (emitPlaintextPayloadFlag c) (includeSourceFlag c)
    (compileTargetIRFlag c) (bypassPayloadTargetCompilationFlag c)
    (passPlugins c) (dialectPlugins c) (Some maxThreads_).

Definition getMaxThreads (c : QEConfig) : option Z := maxThreads c.

(** [shouldEmitBytecode()] of the MLIR base class. *)
Definition shouldEmitBytecode (c : QEConfig) : bool := emitBytecodeFlag (base c).

(** ** Builder stages *)

(** A stage mutates the configuration in place and returns an
    [llvm::Error]: [populateConfig(QEConfig &config)]. *)
Definition Stage : Type := QEConfig -> Error * QEConfig.

(** [if (auto err = f(config)) return err; g(config)]. *)
Definition andThen (f g : Stage) : Stage :=
  fun config =>
    match f config with
    | (Some err, config') => (Some err, config')
    | (None, config') => g config'
    end.

Notation "f ;;; g" := (andThen f g) (at level 90, right associativity).

(** The abstract class [QEConfigBuilder]: [populateConfig] layers the
    builder's settings over an existing configuration. *)
Class QEConfigBuilder (B : Type) : Type := {
  populateConfig : B -> Stage
}.

(** Successive stages applied to one configuration, in list order,
    stopping at the first failure. *)
Fixpoint applyStages (stages : list Stage) : Stage :=
  match stages with
  | [] => fun config => (success, config)
  | s :: rest => s ;;; applyStages rest
  end.

(** ** The process environment *)

(** [std::getenv]: the variables that are set, with their values. *)
Definition getenv (env : gmap string string) (name : string) : option string :=
  env !! name.

(** ** [llvm::StringRef::consumeInteger]

    The LLVM support library's prefix parser, as
    [EnvVarConfigBuilder::populateMaxThreads_] calls it (radix 0, result type
    [unsigned int]). It returns [true] on failure and advances the string
    past what it consumed; the accumulator is an [unsigned long long]. *)

Definition isDigit (c : ascii) : bool :=
  (48 <=? N_of_ascii c)%N && (N_of_ascii c <=? 57)%N.

(** [Str.startswith(Prefix)]. *)
Fixpoint startswith (Str Prefix : string) : bool :=
  match Prefix with
  | EmptyString => true
  | String p Prefix' =>
      match Str with
      | EmptyString => false
      | String c Str' => Ascii.eqb c p && startswith Str' Prefix'
      end
  end.

Definition substr1 (s : string) : string :=
  match s with String _ r => r | EmptyString => EmptyString end.

(** [GetAutoSenseRadix(StringRef &Str)]: the radix, and [Str] with the radix
    prefix removed. *)
Definition GetAutoSenseRadix (Str : string) : N * string :=
  match Str with
  | EmptyString => (10%N, Str)
  | String c0 rest =>
      if startswith Str "0x" || startswith Str "0X" then (16%N, substr1 rest)
      else if startswith Str "0b" || startswith Str "0B" then (2%N, substr1 rest)
      else if startswith Str "0o" then (8%N, substr1 rest)
      else
        match rest with
        | String c1 _ =>
            if Ascii.eqb c0 "0" && isDigit c1 then (8%N, rest) else (10%N, Str)
        | EmptyString => (10%N, Str)
        end
  end.

(** The value of a character as a digit, when it is alphanumeric. *)
Definition charVal (c : ascii) : option N :=
  let n := N_of_ascii c in
  if (48 <=? n)%N && (n <=? 57)%N then Some (n - 48)%N
  else if (97 <=? n)%N && (n <=? 122)%N then Some (n - 97 + 10)%N
  else if (65 <=? n)%N && (n <=? 90)%N then Some (n - 65 + 10)%N
  else None.

(** The digit loop of [consumeUnsignedInteger]: [None] when the 64-bit
    accumulator overflowed, otherwise the accumulator and the unconsumed
    rest [Str2]. *)
Fixpoint consumeDigits (Radix : N) (Str2 : string) (Result : N) : option (N * string) :=
  match Str2 with
  | EmptyString => Some (Result, Str2)
  | String c rest =>
      match charVal c with
      | None => Some (Result, Str2)
      | Some CharVal =>
          if (Radix <=? CharVal)%N then Some (Result, Str2)
          else
            let PrevResult := Result in
            let Result' := ((Result * Radix + CharVal) mod 2 ^ 64)%N in
            if (Result' / Radix <? PrevResult)%N then None
            else consumeDigits Radix rest Result'
      end
  end.

(** The outcome of a consuming parse: whether it failed, what is left of
    the string, and the parsed value (meaningful on success only). *)
Record Consumed : Type := mkConsumed {
  failed : bool;
  remaining : string;
  parsed : N
}.

(** [llvm::consumeUnsignedInteger(StringRef &Str, unsigned Radix,
    unsigned long long &Result)]. *)
Definition consumeUnsignedInteger (Str : string) (Radix : N) : Consumed :=
  let '(Radix, Str) :=
    if (Radix =? 0)%N then GetAutoSenseRadix Str else (Radix, Str) in
  match Str with
  | EmptyString => mkConsumed true Str 0
  | _ =>
      match consumeDigits Radix Str 0 with
      | None => mkConsumed true Str 0
      | Some (Result, Str2) =>
          if (String.length Str =? String.length Str2)%nat
          then mkConsumed true Str Result
          else mkConsumed false Str2 Result
      end
  end.

(** [StringRef::consumeInteger<unsigned int>(Radix, Result)]: fails as well
    when the value does not fit the 32-bit result. *)
Definition consumeInteger (Str : string) (Radix : N) : Consumed :=
  let r := consumeUnsignedInteger Str Radix in
  if failed r then r
  else if negb (parsed r mod 2 ^ 32 =? parsed r)%N
       then mkConsumed true (remaining r) (parsed r)
       else r.

(** ** [EnvVarConfigBuilder] *)

Module EnvVarConfigBuilder.

(** The builder has no members; the environment it reads is made
    explicit. *)
Record t : Type := mk { environ : gmap string string }.

Definition populateConfigurationPath_ (env : gmap string string) : Stage :=
  fun config =>
    match getenv env "QEC_TARGET_CONFIG_PATH" with
    | Some configurationPath =>
        (success, setTargetConfigPath configurationPath config)
    | None => (success, config)
    end.

Definition populateTarget_ (env : gmap string string) : Stage :=
  fun config =>
    match getenv env "QEC_TARGET_NAME" with
    | Some targetStr => (success, setTargetName targetStr config)
    | None => (success, config)
    end.

Definition maxThreadsMessage (maxThreadsStr : string) : string :=
  "Unable to parse maximum threads from " +:+ dquote +:+ maxThreadsStr
    +:+ dquote +:+ nl.

Definition populateMaxThreads_ (env : gmap string string) : Stage :=
  fun config =>
    match getenv env "QEC_MAX_THREADS" with
    | Some maxThreads =>
        let r := consumeInteger maxThreads 0 in
        if failed r then
          (createStringError inconvertibleErrorCode
             (maxThreadsMessage (remaining r)), config)
        else (success, setMaxThreads (Z.of_N (parsed r)) config)
    | None => (success, config)
    end.

Definition verbosityMessage (verbosity : string) : string :=
  "QEC_VERBOSITY level unrecognized got (" +:+ verbosity
    +:+ "), options are ERROR, WARN, INFO, or DEBUG" +:+ nl.

Definition populateVerbosity_ (env : gmap string string) : Stage :=
  fun config =>
    match getenv env "QEC_VERBOSITY" with
    | Some verbosity =>
        if String.eqb verbosity "ERROR" then
          (success, setVerbosityLevel QEVerbosity.Error config)
        else if String.eqb verbosity "WARN" then
          (success, setVerbosityLevel QEVerbosity.Warn config)
        else if String.eqb verbosity "INFO" then
          (success, setVerbosityLevel QEVerbosity.Info config)
        else if String.eqb verbosity "DEBUG" then
          (success, setVerbosityLevel QEVerbosity.Debug config)
        else
          (createStringError inconvertibleErrorCode
             (verbosityMessage verbosity), config)
    | None => (success, config)
    end.

(** The configuration after the two steps that cannot fail. *)
Definition afterNames (env : gmap string string) (config : QEConfig) : QEConfig :=
  (populateTarget_ env (populateConfigurationPath_ env config).2).2.

Definition populateConfig (env : gmap string string) : Stage :=
  populateConfigurationPath_ env ;;;
  populateTarget_ env ;;;
  populateVerbosity_ env ;;;
  populateMaxThreads_ env.

End EnvVarConfigBuilder.

#[global] Instance EnvVarConfigBuilder_builder :
  QEConfigBuilder EnvVarConfigBuilder.t :=
  {| populateConfig := fun b =>
       EnvVarConfigBuilder.populateConfig (EnvVarConfigBuilder.environ b) |}.

(** ** Command-line options: [QEConfigCLOptions] *)

Module QEConfigCLOptions.

(** [VERIFY_PASSES_DEFAULT], which depends on the build flag [NOVERIFY]. *)
Definition VERIFY_PASSES_DEFAULT (NOVERIFY : bool) : bool := negb NOVERIFY.

(** The option storage after construction and before any argument is
    parsed: the [llvm::cl::init] values of the location-backed options
    over the defaults of [QEConfig]. *)
Definition init (NOVERIFY : bool) : QEConfig :=
  {| base :=
       {| allowUnregisteredDialectsFlag := false;
          dumpPassPipelineFlag := false;
          emitBytecodeFlag := false;
          emitBytecodeVersion := None;
          irdlFileFlag := "";
          enableDebuggerActionHookFlag := false;
          useExplicitModuleFlag := false;
          runReproducerFlag := false;
          showDialectsFlag := false;
          splitInputFileFlag := false;
          verifyDiagnosticsFlag := false;
          verifyPassesFlag := VERIFY_PASSES_DEFAULT NOVERIFY;
          verifyRoundtripFlag := false;
          debugConfig := mkDebugConfig 0;
          passPipelineCallback := mkPassPipelineFn 0 |};
     targetName := None;
     targetConfigPath := None;
     inputType := InputType.Undetected;
     emitAction := EmitAction.Undetected;
     verbosityLevel := QEVerbosity._VerbosityCnt;
     addTargetPassesFlag := true;
     showTargetsFlag := false;
     showPayloadsFlag := false;
     showConfigFlag := false;
     payloadName := "-";
     emitPlaintextPayloadFlag := false;
     includeSourceFlag := false;
     compileTargetIRFlag := false;
     bypassPayloadTargetCompilationFlag := false;
     passPlugins := [];
     dialectPlugins := [];
     maxThreads := None |}.

(** The callback of [--config]. *)
Definition targetConfigPath_callback (config : string) (cl : QEConfig) : QEConfig :=
  if negb (String.eqb config "") then setTargetConfigPath config cl else cl.

(** The callback of [--target]. *)
Definition targetName_callback (target : string) (cl : QEConfig) : QEConfig :=
  if negb (String.eqb target "") then setTargetName target cl else cl.

(** [--verbosity] has no callback: the option is backed by the
    [verbosityLevel] member, where the parser stores the level it read. *)
Definition verbosity_parsed (level : QEVerbosity.t) (cl : QEConfig) : QEConfig :=
  setVerbosityLevel level cl.

(** The callback of [--max-threads]; [cliMaxThreads] is the parsed [int]. *)
Definition maxThreads_callback (cliMaxThreads : Z) (cl : QEConfig) : QEConfig :=
  if (0 <? cliMaxThreads)%Z then setMaxThreads (to_unsigned cliMaxThreads) cl
  else cl.

Definition autodetectMessage : string :=
  "Unable to autodetect file extension type! Please specify the "
    +:+ "input type with -X".

Definition computeInputType `{ExtensionTables} (inputFilename : string)
    : Stage :=
  fun cl =>
    if decide (getInputType cl = InputType.Undetected) then
      let cl :=
        if shouldEmitBytecode cl then setInputType InputType.Bytecode cl
        else setInputType
               (fileExtensionToInputType (getExtension inputFilename)) cl in
      if negb (String.eqb inputFilename "-")
         && bool_decide (getInputType cl = InputType.Undetected)
      then (createStringError inconvertibleErrorCode autodetectMessage, cl)
      else (success, cl)
    else (success, cl).

Definition unknownExtensionWarning (outputFilename : string) : string :=
  "Cannot determine the file extension of the specified "
    +:+ "output file " +:+ outputFilename
    +:+ " defaulting to dumping MLIR" +:+ nl.

Definition mismatchWarning : string :=
  "Warning! The output type in the file extension doesn't "
    +:+ "match the output type specified by --emit!" +:+ nl.

(** [computeOutputType]: the result, the updated options, and the text
    written to [llvm::errs()]. *)
Definition computeOutputType `{ExtensionTables} (outputFilename : string)
    (cl : QEConfig) : Error * QEConfig * list string :=
  if negb (String.eqb outputFilename "-") then
    let extensionAction := fileExtensionToAction (getExtension outputFilename) in
    if bool_decide (extensionAction = EmitAction.Undetected)
       && bool_decide (emitAction cl = EmitAction.Undetected)
    then (success, setEmitAction EmitAction.MLIR cl,
          [unknownExtensionWarning outputFilename])
    else if decide (emitAction cl = EmitAction.Undetected)
    then (success, setEmitAction extensionAction cl, [])
    else if decide (extensionAction <> getEmitAction cl)
    then (success, cl, [mismatchWarning])
    else (success, cl, [])
  else
    if decide (emitAction cl = EmitAction.Undetected)
    then (success, setEmitAction EmitAction.MLIR cl, [])
    else (success, cl, []).

End QEConfigCLOptions.

(** ** [CLIConfigBuilder] *)

Module CLIConfigBuilder.

(** The builder reads the process-wide [clOptionsConfig]; its state is
    made explicit. *)
Record t : Type := mk { clOptionsConfig : QEConfig }.

(** [populateConfig(QEConfig &config)]. *)
Definition populateConfig (clOptionsConfig : QEConfig) : Stage :=
  fun config =>
    (success,
     {| base :=
          {| allowUnregisteredDialectsFlag :=
               allowUnregisteredDialectsFlag (base clOptionsConfig);
             dumpPassPipelineFlag := dumpPassPipelineFlag (base clOptionsConfig);
             emitBytecodeFlag := emitBytecodeFlag (base config);
             emitBytecodeVersion :=
               if has_value (emitBytecodeVersion (base clOptionsConfig))
               then emitBytecodeVersion (base clOptionsConfig)
               else emitBytecodeVersion (base config);
             irdlFileFlag := irdlFileFlag (base clOptionsConfig);
             enableDebuggerActionHookFlag :=
               enableDebuggerActionHookFlag (base clOptionsConfig);
             useExplicitModuleFlag := useExplicitModuleFlag (base clOptionsConfig);
             runReproducerFlag := runReproducerFlag (base clOptionsConfig);
             showDialectsFlag := showDialectsFlag (base clOptionsConfig);
             splitInputFileFlag := splitInputFileFlag (base clOptionsConfig);
             verifyDiagnosticsFlag := verifyDiagnosticsFlag (base clOptionsConfig);
             verifyPassesFlag := verifyPassesFlag (base clOptionsConfig);
             verifyRoundtripFlag := verifyRoundtripFlag (base clOptionsConfig);
             debugConfig := debugConfig (base clOptionsConfig);
             passPipelineCallback := passPipelineCallback (base clOptionsConfig) |};
        targetName :=
          if has_value (targetName clOptionsConfig) then targetName clOptionsConfig
          else targetName config;
        targetConfigPath :=
          if has_value (targetConfigPath clOptionsConfig) then targetConfigPath clOptionsConfig
          else targetConfigPath config;
        inputType := inputType config;
        emitAction := emitAction config;
        verbosityLevel :=
          if decide (verbosityLevel clOptionsConfig <> QEVerbosity._VerbosityCnt)
          then verbosityLevel clOptionsConfig
          else verbosityLevel config;
        addTargetPassesFlag := addTargetPassesFlag clOptionsConfig;
        showTargetsFlag := showTargetsFlag clOptionsConfig;
        showPayloadsFlag := showPayloadsFlag clOptionsConfig;
        showConfigFlag := showConfigFlag clOptionsConfig;
        payloadName := payloadName config;
        emitPlaintextPayloadFlag := emitPlaintextPayloadFlag clOptionsConfig;
        includeSourceFlag := includeSourceFlag clOptionsConfig;
        compileTargetIRFlag := compileTargetIRFlag clOptionsConfig;
        bypassPayloadTargetCompilationFlag :=
          bypassPayloadTargetCompilationFlag clOptionsConfig;
        passPlugins := passPlugins config ++ passPlugins clOptionsConfig;
        dialectPlugins := dialectPlugins config ++ dialectPlugins clOptionsConfig;
        maxThreads :=
          if has_value (maxThreads clOptionsConfig) then maxThreads clOptionsConfig
          else maxThreads config |}).

(** The outcome of the entry point that also takes the file names: the
    result, the configuration, the option storage (which the two
    resolution steps mutate) and the text written to [llvm::errs()]. *)
Record Outcome : Type := mkOutcome {
  result : Error;
  config_out : QEConfig;
  cl_out : QEConfig;
  errs_out : list string
}.

(** [populateConfig(QEConfig &config, StringRef inputFilename,
    StringRef outputFilename)]. *)
Definition populateConfigWithFiles `{ExtensionTables}
    (inputFilename outputFilename : string)
    (clOptionsConfig config : QEConfig) : Outcome :=
  match populateConfig clOptionsConfig config with
  | (Some err, config) => mkOutcome (Some err) config clOptionsConfig []
  | (None, config) =>
      match QEConfigCLOptions.computeInputType inputFilename clOptionsConfig with
      | (Some err, cl) => mkOutcome (Some err) config cl []
      | (None, cl) =>
          let config := setInputType (inputType cl) config in
          match QEConfigCLOptions.computeOutputType outputFilename cl with
          | (Some err, cl, errs) => mkOutcome (Some err) config cl errs
          | (None, cl, errs) =>
              mkOutcome success (setEmitAction (emitAction cl) config) cl errs
          end
      end
  end.

End CLIConfigBuilder.

#[global] Instance CLIConfigBuilder_builder : QEConfigBuilder CLIConfigBuilder.t :=
  {| populateConfig := fun b =>
       CLIConfigBuilder.populateConfig (CLIConfigBuilder.clOptionsConfig b) |}.

(** ** Error reporting: [errors.cpp] *)

Module Severity.
Inductive t : Type := Info | Warning | Error | Fatal.
End Severity.

Module ErrorCategory.
Inductive t : Type :=
  | OpenQASM3ParseFailure
  | QECompilerError
  | QECompilerNoInputError
  | QECompilerCommunicationFailure
  | QECompilerEOFFailure
  | QECompilerNonZeroStatus
  | QECompilerSequenceTooLong
  | QECompilationFailure
  | QELinkerNotImplemented
  | QELinkSignatureWarning
  | QELinkSignatureError
  | QELinkAddressError
  | QELinkSignatureNotFound
  | QELinkArgumentNotFoundWarning
  | QELinkInvalidPatchTypeError
  | QEControlSystemResourcesExceeded
  | UncategorizedError.
End ErrorCategory.

Definition getErrorCategoryAsString (category : ErrorCategory.t) : string :=
  match category with
  | ErrorCategory.OpenQASM3ParseFailure => "OpenQASM 3 parse error"
  | ErrorCategory.QECompilerError => "Unknown compiler error"
  | ErrorCategory.QECompilerNoInputError =>
      "Error when no input file or string is provided"
  | ErrorCategory.QECompilerCommunicationFailure =>
      "Error on compilation communication failure"
  | ErrorCategory.QECompilerEOFFailure => "EOF Error"
  | ErrorCategory.QECompilerNonZeroStatus =>
      "Errored because non-zero status is returned"
  | ErrorCategory.QECompilerSequenceTooLong => "Input sequence is too long"
  | ErrorCategory.QECompilationFailure => "Failure during compilation"
  | ErrorCategory.QELinkerNotImplemented =>
      "BindArguments not implemented for target"
  | ErrorCategory.QELinkSignatureWarning =>
      "Signature file format is invalid but may be processed"
  | ErrorCategory.QELinkSignatureError => "Signature file format is invalid"
  | ErrorCategory.QELinkAddressError => "Signature address is invalid"
  | ErrorCategory.QELinkSignatureNotFound => "Signature file not found"
  | ErrorCategory.QELinkArgumentNotFoundWarning =>
      "Parameter in signature not found in arguments"
  | ErrorCategory.QELinkInvalidPatchTypeError => "Invalid patch point type"
  | ErrorCategory.QEControlSystemResourcesExceeded =>
      "Control system resources exceeded"
  | ErrorCategory.UncategorizedError => "Compilation failure"
  end.

Definition getSeverityAsString (sev : Severity.t) : string :=
  match sev with
  | Severity.Info => "Info"
  | Severity.Warning => "Warning"
  | Severity.Error => "Error"
  | Severity.Fatal => "Fatal"
  end.

Record Diagnostic : Type := mkDiagnostic {
  severity : Severity.t;
  category : ErrorCategory.t;
  message : string
}.

(** [Diagnostic::toString]. *)
Definition toString (d : Diagnostic) : string :=
  (getSeverityAsString (severity d) +:+ ": "
     +:+ getErrorCategoryAsString (category d) +:+ nl)
  +:+ message d.

(** A diagnostic callback acts on the state [W] of whoever installed it
    (a log, a collection, a user interface). *)
Definition DiagnosticCallback (W : Type) : Type := Diagnostic -> W -> W.

(** [emitDiagnostic(onDiagnostic, diag, ec)]: the returned error and the
    callback owner's state afterwards. *)
Definition emitDiagnostic {W : Type} (onDiagnostic : option (DiagnosticCallback W))
    (diag : Diagnostic) (ec : error_code) (w : W) : Error * W :=
  let w :=
    match onDiagnostic with
    | Some diagnosticCallback => diagnosticCallback diag w
    | None => w
    end in
  (createStringError ec (toString diag), w).

(** The overload that builds the diagnostic from its parts. *)
Definition emitDiagnostic' {W : Type} (onDiagnostic : option (DiagnosticCallback W))
    (severity : Severity.t) (category : ErrorCategory.t) (message : string)
    (ec : error_code) (w : W) : Error * W :=
  let diag := mkDiagnostic severity category message in
  emitDiagnostic onDiagnostic diag ec w.

(** ** Resource directories: [QEC.cpp] *)

(** [llvm::sys::path::append] in POSIX style, for components given as
    strings: a component is joined with one separator unless the path is
    empty, the path already ends with a separator (then the component's
    leading separators are dropped) or the component starts with one. *)

Definition is_separator (c : ascii) : bool := Ascii.eqb c "/".

Fixpoint ends_with_separator (path : string) : bool :=
  match path with
  | EmptyString => false
  | String c EmptyString => is_separator c
  | String _ rest => ends_with_separator rest
  end.

Fixpoint strip_separators (component : string) : string :=
  match component with
  | String c rest =>
      if is_separator c then strip_separators rest else component
  | EmptyString => EmptyString
  end.

Definition starts_with_separator (component : string) : bool :=
  match component with
  | String c _ => is_separator c
  | EmptyString => false
  end.

Definition append1 (path component : string) : string :=
  if ends_with_separator path then path +:+ strip_separators component
  else if negb (starts_with_separator component)
          && negb (String.eqb path "")
  then (path +:+ "/") +:+ component
  else path +:+ component.

Definition path_append (path : string) (components : list string) : string :=
  fold_left append1 components path.

(** What the resource lookup needs of a [qec::hal::Target]. *)
Record Target : Type := mkTarget { getResourcePath : string }.

(** The function-local statics of [_getResourcesDir] and
    [getResourcesDir]; [None] before their first initialisation. *)
Record Statics : Type := mkStatics {
  _getResourcesDir_resourcesDir : option string;
  getResourcesDir_resourcesDir : option string
}.

Definition Statics_fresh : Statics := mkStatics None None.

Section Resources.

(** The compiled-in installation path. *)
Variable QEC_RESOURCES_INSTALL_PREFIX : string.

Definition _getResourcesDir (env : gmap string string) (st : Statics)
    : string * Statics :=
  match getenv env "QEC_RESOURCES" with
  | Some e =>
      match _getResourcesDir_resourcesDir st with
      | Some resourcesDir => (resourcesDir, st)
      | None => (e, mkStatics (Some e) (getResourcesDir_resourcesDir st))
      end
  | None => (QEC_RESOURCES_INSTALL_PREFIX, st)
  end.

Definition getResourcesDir (env : gmap string string) (st : Statics)
    : string * Statics :=
  match getResourcesDir_resourcesDir st with
  | Some resourcesDir => (resourcesDir, st)
  | None =>
      let '(resourcesDir, st) := _getResourcesDir env st in
      (resourcesDir,
       mkStatics (_getResourcesDir_resourcesDir st) (Some resourcesDir))
  end.

Definition getTargetResourcesDir (env : gmap string string) (target : Target)
    (st : Statics) : string * Statics :=
  let '(path, st) := getResourcesDir env st in
  (path_append path ["targets"; getResourcePath target], st).

End Resources.

(** ** Context-scoped target binding: [TargetSystemInfo.h] *)

Module TargetSystemInfo.

(** An [mlir::MLIRContext *], by address; [nullptr] is the reserved
    identity for a binding that belongs to no context. *)
Definition nullptr : N := 0%N.

(** Modelled from the spec: the text of the failure a lookup returns when
    it finds no binding; the header does not give it. *)
Definition notFoundMessage : string := "no binding for this context".

Section WithPlugin.

Context {TargetSystem PluginConfiguration : Type}.

(** Modelled from the spec: the members of [TargetSystemInfo] behind its
    private [Impl], which the header only forward-declares: the plugin
    factory and the relation from context identities to bound instances,
    with at most one binding per identity. *)
Record t : Type := mk {
  targetFactory : option PluginConfiguration -> Expected TargetSystem;
  managedTargets : gmap N TargetSystem
}.

(** Modelled from the spec: [TargetSystemInfo::createTarget], which the
    header declares without a body. The factory
    builds a new instance, which is then bound under the given context;
    a binding that exists for that context is replaced. A factory
    failure is returned and binds nothing. *)
Definition createTarget (context : N)
    (configuration : option PluginConfiguration) (info : t)
    : Expected TargetSystem * t :=
  match targetFactory info configuration with
  | Value target =>
      (Value target,
       mk (targetFactory info)
          (<[context := target]> (managedTargets info)))
  | Failure err => (Failure err, info)
  end.

(** Modelled from the spec: [TargetSystemInfo::getTarget], which the
    header declares without a body. The lookup tries
    the given context, then the [nullptr] binding, and otherwise
    returns an error. *)
Definition getTarget (context : N) (info : t) : Expected TargetSystem :=
  match managedTargets info !! context with
  | Some target => Value target
  | None =>
      match managedTargets info !! nullptr with
      | Some target => Value target
      | None => Failure (mkStringError inconvertibleErrorCode notFoundMessage)
      end
  end.

End WithPlugin.

Arguments t : clear implicits.

End TargetSystemInfo.

(** ** A concrete extension table *)

(** Modelled from the spec: the extension of a file name, which
    [getExtension] (declared in [QEConfig.h] without a body) classifies:
    the text after the last dot, empty when there is none. *)
Fixpoint extensionText (inStr : string) (seen : option string) : string :=
  match inStr with
  | EmptyString => default "" seen
  | String c rest =>
      if Ascii.eqb c "."
      then extensionText rest (Some "")
      else extensionText rest ((fun e => e +:+ String c "") <$> seen)
  end.

(** Modelled from the spec: [strToFileExtension], declared in
    [QEConfig.h] without a body. The spec gives these entries: [.qasm] is source-language input, [.mlir] is textual IR
    as input and as output, [.bc] is bytecode input (and, by the
    repository's test [test/IO/bytecode.mlir], bytecode output), [.qem] is
    the quantum-executable-module output; anything else is not
    recognised. *)
Definition strToFileExtension (extStr : string) : FileExtension.t :=
  if String.eqb extStr "qasm" then FileExtension.QASM
  else if String.eqb extStr "mlir" then FileExtension.MLIR
  else if String.eqb extStr "bc" then FileExtension.Bytecode
  else if String.eqb extStr "qem" then FileExtension.QEM
  else FileExtension.None.

(** Modelled from the spec: [getExtension], [fileExtensionToInputType] and
    [fileExtensionToAction], declared in [QEConfig.h] without a body, with
    the entries listed above. The table serves to run the resolution
    algorithms on concrete file names. *)
Definition specExtensionTables : ExtensionTables :=
  {| getExtension := fun inStr => strToFileExtension (extensionText inStr None);
     fileExtensionToInputType := fun inExt =>
       match inExt with
       | FileExtension.QASM => InputType.QASM
       | FileExtension.MLIR => InputType.MLIR
       | FileExtension.Bytecode => InputType.Bytecode
       | _ => InputType.Undetected
       end;
     fileExtensionToAction := fun inExt =>
       match inExt with
       | FileExtension.MLIR => EmitAction.MLIR
       | FileExtension.Bytecode => EmitAction.Bytecode
       | FileExtension.QEM => EmitAction.QEM
       | _ => EmitAction.Undetected
       end |}.

(** ** [llvm::getAsSignedInteger]

    The LLVM support library's whole-string parser of a signed integer, as
    [BytecodeVersionParser::parse] calls it (radix 10, result type
    [long long]). *)

(** An [unsigned long long] read as a [long long]. *)
Definition to_signed64 (x : N) : Z :=
  if (x <? 2 ^ 63)%N then Z.of_N x else (Z.of_N x - 2 ^ 64)%Z.

Record ConsumedSigned : Type := mkConsumedSigned {
  failedSigned : bool;
  remainingSigned : string;
  parsedSigned : Z
}.

(** [llvm::consumeSignedInteger(StringRef &Str, unsigned Radix,
    long long &Result)]. *)
Definition consumeSignedInteger (Str : string) (Radix : N) : ConsumedSigned :=
  if negb (startswith Str "-") then
    let r := consumeUnsignedInteger Str Radix in
    if failed r || (to_signed64 (parsed r) <? 0)%Z
    then mkConsumedSigned true (remaining r) 0
    else mkConsumedSigned false (remaining r) (Z.of_N (parsed r))
  else
    let r := consumeUnsignedInteger (substr1 Str) Radix in
    let negated := ((2 ^ 64 - parsed r) mod 2 ^ 64)%N in
    if failed r || (0 <? to_signed64 negated)%Z
    then mkConsumedSigned true Str 0
    else mkConsumedSigned false (remaining r) (to_signed64 negated).

(** [llvm::getAsSignedInteger(Str, Radix, Result)]: [None] when it returns
    [true], which it also does when part of the string is left over. *)
Definition getAsSignedInteger (Str : string) (Radix : N) : option Z :=
  let r := consumeSignedInteger Str Radix in
  if failedSigned r then None
  else if negb (String.eqb (remainingSigned r) "") then None
  else Some (parsedSigned r).

(** ** [BytecodeVersionParser] *)

Module BytecodeVersionParser.

Definition invalidArgument (arg : string) : string :=
  "Invalid argument '" +:+ arg +:+ "', only integer is supported.".

(** [parse(O, argName, arg, v)]: the message handed to [O.error], or the
    value stored in [v]. *)
Definition parse (arg : string) : string + Z :=
  match getAsSignedInteger arg 10 with
  | None => inl (invalidArgument arg)
  | Some w => inr w
  end.

End BytecodeVersionParser.

(** ** Occurrences of options on the command line *)

Module CommandLine.

(** The [clEnumValN] tables of [-X], [--emit] and [--verbosity]. *)
Definition inputTypeValues : list (string * InputType.t) :=
  [("qasm", InputType.QASM); ("mlir", InputType.MLIR);
   ("bytecode", InputType.Bytecode)].

Definition emitActionValues : list (string * EmitAction.t) :=
  [("ast", EmitAction.AST); ("ast-pretty", EmitAction.ASTPretty);
   ("mlir", EmitAction.MLIR); ("bytecode", EmitAction.Bytecode);
   ("wavemem", EmitAction.WaveMem); ("qem", EmitAction.QEM);
   ("qe-qem", EmitAction.QEQEM); ("none", EmitAction.None)].

Definition verbosityValues : list (string * QEVerbosity.t) :=
  [("error", QEVerbosity.Error); ("warn", QEVerbosity.Warn);
   ("info", QEVerbosity.Info); ("debug", QEVerbosity.Debug)].

(** The value an enumeration option's parser finds for an argument: that
    of the first entry with this name. *)
Fixpoint findValue {A : Type} (values : list (string * A)) (arg : string)
    : option A :=
  match values with
  | [] => None
  | (name, v) :: rest =>
      if String.eqb name arg then Some v else findValue rest arg
  end.

(** The boolean options, each backed by the member named in its
    [llvm::cl::location]. *)
Inductive BoolOption : Type :=
  | add_target_passes | show_targets | show_payloads | show_config
  | plaintext_payload | include_source | compile_target_ir
  | bypass_payload_target_compilation
  | allow_unregistered_dialect | dump_pass_pipeline
  | mlir_enable_debugger_hook | no_implicit_module | run_reproducer
  | show_dialects | split_input_file | verify_diagnostics | verify_each
  | verify_roundtrip.

#[global] Instance BoolOption_eq_dec : EqDecision BoolOption.
Proof. solve_decision. Defined.

(** The new content of the member behind option [o'] when option [o] is
    given [value]. *)
Definition store (o o' : BoolOption) (value old : bool) : bool :=
  if decide (o = o') then value else old.

Definition setFlag (o : BoolOption) (value : bool) (cl : QEConfig) : QEConfig :=
  {| base :=
       {| allowUnregisteredDialectsFlag :=
            store o allow_unregistered_dialect value
              (allowUnregisteredDialectsFlag (base cl));
          dumpPassPipelineFlag :=
            store o dump_pass_pipeline value (dumpPassPipelineFlag (base cl));
          emitBytecodeFlag := emitBytecodeFlag (base cl);
          emitBytecodeVersion := emitBytecodeVersion (base cl);
          irdlFileFlag := irdlFileFlag (base cl);
          enableDebuggerActionHookFlag :=
            store o mlir_enable_debugger_hook value
              (enableDebuggerActionHookFlag (base cl));
          useExplicitModuleFlag :=
            store o no_implicit_module value (useExplicitModuleFlag (base cl));
          runReproducerFlag :=
            store o run_reproducer value (runReproducerFlag (base cl));
          showDialectsFlag :=
            store o show_dialects value (showDialectsFlag (base cl));
          splitInputFileFlag :=
            store o split_input_file value (splitInputFileFlag (base cl));
          verifyDiagnosticsFlag :=
            store o verify_diagnostics value (verifyDiagnosticsFlag (base cl));
          verifyPassesFlag :=
            store o verify_each value (verifyPassesFlag (base cl));
          verifyRoundtripFlag :=
            store o verify_roundtrip value (verifyRoundtripFlag (base cl));
          debugConfig := debugConfig (base cl);
          passPipelineCallback := passPipelineCallback (base cl) |};
     targetName := targetName cl;
     targetConfigPath := targetConfigPath cl;
     inputType := inputType cl;
     emitAction := emitAction cl;
     verbosityLevel := verbosityLevel cl;
     addTargetPassesFlag :=
       store o add_target_passes value (addTargetPassesFlag cl);
     showTargetsFlag := store o show_targets value (showTargetsFlag cl);
     showPayloadsFlag := store o show_payloads value (showPayloadsFlag cl);
     showConfigFlag := store o show_config value (showConfigFlag cl);
     payloadName := payloadName cl;
     emitPlaintextPayloadFlag :=
       store o plaintext_payload value (emitPlaintextPayloadFlag cl);
     includeSourceFlag := store o include_source value (includeSourceFlag cl);
     compileTargetIRFlag :=
       store o compile_target_ir value (compileTargetIRFlag cl);
     bypassPayloadTargetCompilationFlag :=
       store o bypass_payload_target_compilation value
         (bypassPayloadTargetCompilationFlag cl);
     passPlugins := passPlugins cl;
     dialectPlugins := dialectPlugins cl;
     maxThreads := maxThreads cl |}.

(** The members of the MLIR base class behind [--emit-bytecode-version]
    and [--irdl-file]. *)
Definition setBytecodeVersionAndIrdlFile (version : option Z) (irdlFile : string)
    (cl : QEConfig) : QEConfig :=
  mkQEConfig
    (mkMlirOptMainConfig
       (allowUnregisteredDialectsFlag (base cl)) (dumpPassPipelineFlag (base cl))
       (emitBytecodeFlag (base cl)) version irdlFile
       (enableDebuggerActionHookFlag (base cl)) (useExplicitModuleFlag (base cl))
       (runReproducerFlag (base cl)) (showDialectsFlag (base cl))
       (splitInputFileFlag (base cl)) (verifyDiagnosticsFlag (base cl))
       (verifyPassesFlag (base cl)) (verifyRoundtripFlag (base cl))
       (debugConfig (base cl)) (passPipelineCallback (base cl)))
    (targetName cl) (targetConfigPath cl) (inputType cl)
    (emitAction cl) (verbosityLevel cl) (addTargetPassesFlag cl)
    (showTargetsFlag cl) (showPayloadsFlag cl) (showConfigFlag cl)
    (payloadName cl) (emitPlaintextPayloadFlag cl) (includeSourceFlag cl)
    (compileTargetIRFlag cl) (bypassPayloadTargetCompilationFlag cl)
    (passPlugins cl) (dialectPlugins cl) (maxThreads cl).

(** [passPlugins.push_back] and [dialectPlugins.push_back]. *)
Definition setPluginLists (passes dialects : list string) (cl : QEConfig)
    : QEConfig :=
  mkQEConfig (base cl) (targetName cl) (targetConfigPath cl) (inputType cl)
    (emitAction cl) (verbosityLevel cl) (addTargetPassesFlag cl)
    (showTargetsFlag cl) (showPayloadsFlag cl) (showConfigFlag cl)
    (payloadName cl) (emitPlaintextPayloadFlag cl) (includeSourceFlag cl)
    (compileTargetIRFlag cl) (bypassPayloadTargetCompilationFlag cl)
    passes dialects (maxThreads cl).

Definition passPluginWarning (pluginPath : string) : string :=
  "Failed to load passes from '" +:+ pluginPath +:+ "'. Request ignored."
    +:+ nl.

Definition dialectPluginWarning (pluginPath : string) : string :=
  "Failed to load dialect from '" +:+ pluginPath +:+ "'. Request ignored."
    +:+ nl.

(** One occurrence of an option. Enumeration options, the bytecode version
    and the string options carry the argument text; boolean options and
    [--max-threads] carry the value LLVM's built-in parser read; a plugin
    option carries its path and whether [loadPassPlugin] or
    [loadDialectPlugin] succeeded on it. *)
Inductive Occurrence : Type :=
  | flag (o : BoolOption) (value : bool)
  | X (arg : string)
  | emit (arg : string)
  | config (arg : string)
  | target (arg : string)
  | emit_bytecode_version (arg : string)
  | irdl_file (arg : string)
  | load_pass_plugin (pluginPath : string) (loaded : bool)
  | load_dialect_plugin (pluginPath : string) (loaded : bool)
  | verbosity (arg : string)
  | max_threads (value : Z).

(** The state of a parse: whether an argument was rejected, the option
    storage, and the text written to [llvm::errs()] by the callbacks. *)
Record Parse : Type := mkParse {
  errorParsing : bool;
  storage : QEConfig;
  errs : list string
}.

Definition accept (cl : QEConfig) (p : Parse) : Parse :=
  mkParse (errorParsing p) cl (errs p).

Definition reject (p : Parse) : Parse :=
  mkParse true (storage p) (errs p).

Definition warn (message : string) (p : Parse) : Parse :=
  mkParse (errorParsing p) (storage p) (errs p ++ [message]).

(** The effect of one occurrence. [registered] tells whether
    [CLIConfigBuilder::registerCLOptions] has installed the callback of
    [--load-dialect-plugin]; without it the paths stay in LLVM's own list. *)
Definition provide (registered : bool) (occ : Occurrence) (p : Parse) : Parse :=
  let cl := storage p in
  match occ with
  | flag o value => accept (setFlag o value cl) p
  | X arg =>
      match findValue inputTypeValues arg with
      | Some type => accept (setInputType type cl) p
      | None => reject p
      end
  | emit arg =>
      match findValue emitActionValues arg with
      | Some action => accept (setEmitAction action cl) p
      | None => reject p
      end
  | config arg => accept (QEConfigCLOptions.targetConfigPath_callback arg cl) p
  | target arg => accept (QEConfigCLOptions.targetName_callback arg cl) p
  | emit_bytecode_version arg =>
      match BytecodeVersionParser.parse arg with
      | inr v =>
          accept (setBytecodeVersionAndIrdlFile (Some v)
                    (irdlFileFlag (base cl)) cl) p
      | inl _ => reject p
      end
  | irdl_file arg =>
      accept (setBytecodeVersionAndIrdlFile (emitBytecodeVersion (base cl))
                arg cl) p
  | load_pass_plugin pluginPath loaded =>
      let p :=
        accept (setPluginLists (passPlugins cl ++ [pluginPath])
                  (dialectPlugins cl) cl) p in
      if loaded then p else warn (passPluginWarning pluginPath) p
  | load_dialect_plugin pluginPath loaded =>
      if registered then
        let p :=
          accept (setPluginLists (passPlugins cl)
                    (dialectPlugins cl ++ [pluginPath]) cl) p in
        if loaded then p else warn (dialectPluginWarning pluginPath) p
      else p
  | verbosity arg =>
      match findValue verbosityValues arg with
      | Some level => accept (setVerbosityLevel level cl) p
      | None => reject p
      end
  | max_threads value =>
      accept (QEConfigCLOptions.maxThreads_callback value cl) p
  end.

(** The occurrences are handled from left to right; a rejected argument
    does not stop the parse. *)
Definition parseCommandLine (registered : bool) (occs : list Occurrence)
    (cl : QEConfig) : Parse :=
  fold_left (fun p occ => provide registered occ p) occs (mkParse false cl []).

(** The paths of the plugin occurrences, and the warnings of those that
    failed to load, in command-line order. *)
Definition passPluginPaths (occs : list Occurrence) : list string :=
  omap (fun occ =>
          match occ with
          | load_pass_plugin pluginPath _ => Some pluginPath
          | _ => None
          end) occs.

Definition dialectPluginPaths (occs : list Occurrence) : list string :=
  omap (fun occ =>
          match occ with
          | load_dialect_plugin pluginPath _ => Some pluginPath
          | _ => None
          end) occs.

Definition pluginWarnings (registered : bool) (occs : list Occurrence)
    : list string :=
  omap (fun occ =>
          match occ with
          | load_pass_plugin pluginPath false =>
              Some (passPluginWarning pluginPath)
          | load_dialect_plugin pluginPath false =>
              if registered then Some (dialectPluginWarning pluginPath)
              else None
          | _ => None
          end) occs.

Definition isPluginOccurrence (occ : Occurrence) : Prop :=
  match occ with
  | load_pass_plugin _ _ | load_dialect_plugin _ _ => True
  | _ => False
  end.

(** An occurrence of [--max-threads] carries an [int]. *)
Definition inIntRange (occ : Occurrence) : Prop :=
  match occ with
  | max_threads value => (INT_MIN <= value <= INT_MAX)%Z
  | _ => True
  end.

(** What holds of the option storage however the command line reads: no
    option is backed by the bytecode-emission flag, the thread cap is absent
    or a positive [int], and the target name and configuration path are
    absent or non-empty. *)
Definition storageInvariant (cl : QEConfig) : Prop :=
  shouldEmitBytecode cl = false
  /\ (forall v, maxThreads cl = Some v -> (0 < v <= INT_MAX)%Z)
  /\ targetName cl <> Some ""
  /\ targetConfigPath cl <> Some "".

End CommandLine.

(** ** Vocabulary for the environment values *)

(** The level each verbosity token stands for. *)
Definition verbosityOfToken (token : string) : option QEVerbosity.t :=
  if String.eqb token "ERROR" then Some QEVerbosity.Error
  else if String.eqb token "WARN" then Some QEVerbosity.Warn
  else if String.eqb token "INFO" then Some QEVerbosity.Info
  else if String.eqb token "DEBUG" then Some QEVerbosity.Debug
  else None.

(** The closed vocabulary of [QEC_VERBOSITY], each token with its level. *)
Definition verbosityTokens : list (string * QEVerbosity.t) :=
  [("ERROR", QEVerbosity.Error); ("WARN", QEVerbosity.Warn);
   ("INFO", QEVerbosity.Info); ("DEBUG", QEVerbosity.Debug)].

(** [QEC_VERBOSITY] is unset or holds one of the four tokens. *)
Definition verbosityAcceptable (env : gmap string string) : Prop :=
  match env !! "QEC_VERBOSITY" with
  | Some token => is_Some (verbosityOfToken token)
  | None => True
  end.

(** A value is non-numeric when it is empty or does not begin with a
    decimal digit. *)
Definition startsWithDigit (s : string) : bool :=
  match s with
  | String c _ => isDigit c
  | EmptyString => false
  end.

Fixpoint allDigits (s : string) : bool :=
  match s with
  | String c rest => isDigit c && allDigits rest
  | EmptyString => true
  end.

(** The number a string of decimal digits denotes, continuing from [acc]. *)
Fixpoint decimalValueFrom (acc : N) (s : string) : N :=
  match s with
  | String c rest => decimalValueFrom (acc * 10 + (N_of_ascii c - 48))%N rest
  | EmptyString => acc
  end.

Definition decimalValue (s : string) : N := decimalValueFrom 0 s.

(** A decimal numeral in its usual form: one or more decimal digits, with
    no leading zero unless it is the numeral [0] itself. *)
Definition isDecimalNumeral (s : string) : bool :=
  match s with
  | EmptyString => false
  | String c rest =>
      allDigits s && (negb (Ascii.eqb c "0") || String.eqb rest "")
  end.

(** ** The overlay law as a pure merge *)

(** The later stage's value when it has one, the earlier stage's value
    otherwise. *)
Definition overlay {A : Type} (later earlier : option A) : option A :=
  match later with
  | Some v => Some v
  | None => earlier
  end.

(** What the environment says about the verbosity and the thread cap. *)
Definition envVerbosity (env : gmap string string) : option QEVerbosity.t :=
  env !! "QEC_VERBOSITY" ≫= verbosityOfToken.

Definition envMaxThreads (env : gmap string string) : option Z :=
  (fun value => Z.of_N (parsed (consumeInteger value 0)))
    <$> env !! "QEC_MAX_THREADS".

(** What the command line says about the verbosity: the option storage
    starts at [_VerbosityCnt], which stands for a flag that was not given. *)
Definition cliVerbosity (cl : QEConfig) : option QEVerbosity.t :=
  if decide (verbosityLevel cl = QEVerbosity._VerbosityCnt) then None
  else Some (verbosityLevel cl).

(** The environment laid over a configuration. *)
Definition envLayer (env : gmap string string) (config : QEConfig) : QEConfig :=
  {| base := base config;
     targetName := overlay (env !! "QEC_TARGET_NAME") (targetName config);
     targetConfigPath :=
       overlay (env !! "QEC_TARGET_CONFIG_PATH") (targetConfigPath config);
     inputType := inputType config;
     emitAction := emitAction config;
     verbosityLevel := default (verbosityLevel config) (envVerbosity env);
     addTargetPassesFlag := addTargetPassesFlag config;
     showTargetsFlag := showTargetsFlag config;
     showPayloadsFlag := showPayloadsFlag config;
     showConfigFlag := showConfigFlag config;
     payloadName := payloadName config;
     emitPlaintextPayloadFlag := emitPlaintextPayloadFlag config;
     includeSourceFlag := includeSourceFlag config;
     compileTargetIRFlag := compileTargetIRFlag config;
     bypassPayloadTargetCompilationFlag :=
       bypassPayloadTargetCompilationFlag config;
     passPlugins := passPlugins config;
     dialectPlugins := dialectPlugins config;
     maxThreads := overlay (envMaxThreads env) (maxThreads config) |}.

(** The command-line option storage laid over a configuration: optional
    settings merge, flags are taken from the storage, plugin paths are
    appended, and the input kind, emit action and payload name are left to
    the configuration. *)
Definition cliLayer (cl config : QEConfig) : QEConfig :=
  {| base :=
       {| allowUnregisteredDialectsFlag := allowUnregisteredDialectsFlag (base cl);
          dumpPassPipelineFlag := dumpPassPipelineFlag (base cl);
          emitBytecodeFlag := emitBytecodeFlag (base config);
          emitBytecodeVersion :=
            overlay (emitBytecodeVersion (base cl))
              (emitBytecodeVersion (base config));
          irdlFileFlag := irdlFileFlag (base cl);
          enableDebuggerActionHookFlag := enableDebuggerActionHookFlag (base cl);
          useExplicitModuleFlag := useExplicitModuleFlag (base cl);
          runReproducerFlag := runReproducerFlag (base cl);
          showDialectsFlag := showDialectsFlag (base cl);
          splitInputFileFlag := splitInputFileFlag (base cl);
          verifyDiagnosticsFlag := verifyDiagnosticsFlag (base cl);
          verifyPassesFlag := verifyPassesFlag (base cl);
          verifyRoundtripFlag := verifyRoundtripFlag (base cl);
          debugConfig := debugConfig (base cl);
          passPipelineCallback := passPipelineCallback (base cl) |};
     targetName := overlay (targetName cl) (targetName config);
     targetConfigPath := overlay (targetConfigPath cl) (targetConfigPath config);
     inputType := inputType config;
     emitAction := emitAction config;
     verbosityLevel := default (verbosityLevel config) (cliVerbosity cl);
     addTargetPassesFlag := addTargetPassesFlag cl;
     showTargetsFlag := showTargetsFlag cl;
     showPayloadsFlag := showPayloadsFlag cl;
     showConfigFlag := showConfigFlag cl;
     payloadName := payloadName config;
     emitPlaintextPayloadFlag := emitPlaintextPayloadFlag cl;
     includeSourceFlag := includeSourceFlag cl;
     compileTargetIRFlag := compileTargetIRFlag cl;
     bypassPayloadTargetCompilationFlag := bypassPayloadTargetCompilationFlag cl;
     passPlugins := passPlugins config ++ passPlugins cl;
     dialectPlugins := dialectPlugins config ++ dialectPlugins cl;
     maxThreads := overlay (maxThreads cl) (maxThreads config) |}.

(** ** Vocabulary for formatted text *)

(** Whether a character occurs in a string. *)
Fixpoint occurs (c : ascii) (s : string) : bool :=
  match s with
  | String d rest => Ascii.eqb c d || occurs c rest
  | EmptyString => false
  end.

(** * Verified properties *)

(** ** Facts about strings *)

Lemma string_app_cons (x : ascii) (a b : string) :
  String x a +:+ b = String x (a +:+ b).
Proof. reflexivity. Qed.

Lemma string_app_nil_l (b : string) : "" +:+ b = b.
Proof. reflexivity. Qed.

Lemma string_app_assoc (a b c : string) : (a +:+ b) +:+ c = a +:+ (b +:+ c).
Proof.
  induction a as [| x a IH]; [reflexivity |].
  rewrite !string_app_cons. by rewrite IH.
Qed.

Lemma string_app_empty_r (a : string) : a +:+ "" = a.
Proof.
  induction a as [| x a IH]; [reflexivity |].
  rewrite string_app_cons. by rewrite IH.
Qed.

(** ** Plugin lists *)

(** C9: [setPassPlugins] writes the [dialectPlugins] member: afterwards both
    [getPassPlugins] and [getDialectPlugins] return the list that was
    passed, the [passPlugins] member keeps its old value, and the call has
    the same effect as [setDialectPlugins]; a later [setDialectPlugins]
    therefore changes what [getPassPlugins] returns. *)
Theorem setPassPlugins_aliases_dialectPlugins (l : list string) (c : QEConfig) :
  getPassPlugins (setPassPlugins l c) = l
  /\ getDialectPlugins (setPassPlugins l c) = l
  /\ passPlugins (setPassPlugins l c) = passPlugins c
  /\ setPassPlugins l c = setDialectPlugins l c
  /\ (forall l', getPassPlugins (setDialectPlugins l' (setPassPlugins l c)) = l').
Proof.
  unfold getPassPlugins, getDialectPlugins, setPassPlugins, setDialectPlugins.
  simpl. repeat split.
Qed.

(** ** Input and output kind resolution *)

Section Resolution.

Context `{ExtensionTables}.

Import QEConfigCLOptions.

(** C2: [computeInputType] keeps an input kind that is already set;
    otherwise a requested bytecode emission makes the kind [Bytecode];
    otherwise the kind is the one the table gives for the file name's
    extension. The call fails, with the autodetect message, exactly when
    the kind was unset, was not forced to bytecode, could not be derived,
    and the file name is not the standard-input name; in every other case
    it succeeds. *)
Theorem computeInputType_resolves (inputFilename : string) (cl : QEConfig) :
  let derived := fileExtensionToInputType (getExtension inputFilename) in
  let r := computeInputType inputFilename cl in
  (getInputType cl <> InputType.Undetected -> r = (success, cl))
  /\ (getInputType cl = InputType.Undetected ->
      shouldEmitBytecode cl = true ->
      r = (success, setInputType InputType.Bytecode cl))
  /\ (getInputType cl = InputType.Undetected ->
      shouldEmitBytecode cl = false ->
      r.2 = setInputType derived cl /\ getInputType r.2 = derived)
  /\ (getInputType cl = InputType.Undetected ->
      shouldEmitBytecode cl = false ->
      derived = InputType.Undetected ->
      inputFilename <> "-" ->
      r.1 = createStringError inconvertibleErrorCode autodetectMessage)
  /\ (isFailure r.1 = false <->
      ~ (getInputType cl = InputType.Undetected
         /\ shouldEmitBytecode cl = false
         /\ derived = InputType.Undetected
         /\ inputFilename <> "-")).
Proof.
  intros derived r. subst r derived. unfold computeInputType.
  destruct (String.eqb_spec inputFilename "-") as [Hname | Hname];
    destruct (decide (getInputType cl = InputType.Undetected)) as [Hin | Hin];
    destruct (shouldEmitBytecode cl) eqn:Hbc;
    simpl; repeat case_bool_decide; simpl;
    repeat split; intros;
    try done; try tauto;
    try (exfalso; unfold getInputType, setInputType in *; simpl in *;
         congruence).
  all: unfold getInputType, setInputType in *; simpl in *; intuition congruence.
Qed.

(** C3: [computeOutputType] on the standard-output name sets textual MLIR
    unless an action is already set. On any other name it takes the
    action of the extension when none is set; when the extension is not
    recognised and no action is set it falls back to textual MLIR and
    writes a warning; when an action is set and differs from the
    extension's, the set action stays and a mismatch warning is written.
    Every case returns success, so both warnings are non-fatal. *)
Theorem computeOutputType_resolves (outputFilename : string) (cl : QEConfig) :
  let extensionAction := fileExtensionToAction (getExtension outputFilename) in
  let r := computeOutputType outputFilename cl in
  (outputFilename = "-" -> emitAction cl = EmitAction.Undetected ->
     r = (success, setEmitAction EmitAction.MLIR cl, []))
  /\ (outputFilename = "-" -> emitAction cl <> EmitAction.Undetected ->
     r = (success, cl, []))
  /\ (outputFilename <> "-" -> emitAction cl = EmitAction.Undetected ->
      extensionAction <> EmitAction.Undetected ->
     r = (success, setEmitAction extensionAction cl, []))
  /\ (outputFilename <> "-" -> emitAction cl = EmitAction.Undetected ->
      extensionAction = EmitAction.Undetected ->
     r = (success, setEmitAction EmitAction.MLIR cl,
          [unknownExtensionWarning outputFilename]))
  /\ (outputFilename <> "-" -> emitAction cl <> EmitAction.Undetected ->
      extensionAction <> emitAction cl ->
     r = (success, cl, [mismatchWarning]))
  /\ (outputFilename <> "-" -> emitAction cl <> EmitAction.Undetected ->
      extensionAction = emitAction cl ->
     r = (success, cl, [])).
Proof.
  intros extensionAction r. subst r extensionAction.
  unfold computeOutputType, getEmitAction.
  destruct (String.eqb_spec outputFilename "-") as [Hname | Hname]; simpl;
    repeat case_bool_decide; repeat case_decide; simpl;
    repeat split; intros; congruence.
Qed.

(** C8: [computeOutputType] returns success for every output file name,
    and the emit action it leaves in the options is never [Undetected]. *)
Theorem computeOutputType_total_and_detected (outputFilename : string)
    (cl : QEConfig) :
  (computeOutputType outputFilename cl).1.1 = success
  /\ emitAction (computeOutputType outputFilename cl).1.2
     <> EmitAction.Undetected.
Proof.
  unfold computeOutputType, getEmitAction.
  destruct (String.eqb outputFilename "-"); simpl;
    repeat case_bool_decide; repeat case_decide; simpl;
    split; try reflexivity; try congruence.
  all: intros Hu; simpl in *;
    match goal with
    | Hn : ~ (_ /\ _) |- _ => apply Hn; split; congruence
    | _ => congruence
    end.
Qed.

End Resolution.

(** Running the two resolutions on concrete file names, with the table the
    spec describes. *)
Lemma computeInputType_resolves_witness :
  (QEConfigCLOptions.computeInputType (H := specExtensionTables) "prog.qasm"
     (QEConfigCLOptions.init false)).2
  = setInputType InputType.QASM (QEConfigCLOptions.init false)
  /\ (QEConfigCLOptions.computeInputType (H := specExtensionTables) "prog.txt"
        (QEConfigCLOptions.init false)).1
     = createStringError inconvertibleErrorCode
         QEConfigCLOptions.autodetectMessage
  /\ QEConfigCLOptions.computeInputType (H := specExtensionTables) "prog.txt"
       (setInputType InputType.MLIR (QEConfigCLOptions.init false))
     = (success, setInputType InputType.MLIR (QEConfigCLOptions.init false)).
Proof.
  split; [| split].
  - apply (computeInputType_resolves (H := specExtensionTables) "prog.qasm"
             (QEConfigCLOptions.init false)); reflexivity.
  - apply (computeInputType_resolves (H := specExtensionTables) "prog.txt"
             (QEConfigCLOptions.init false)); [reflexivity .. | discriminate].
  - apply (computeInputType_resolves (H := specExtensionTables) "prog.txt"
             (setInputType InputType.MLIR (QEConfigCLOptions.init false))).
    discriminate.
Defined.

Lemma computeOutputType_resolves_witness :
  QEConfigCLOptions.computeOutputType (H := specExtensionTables) "out.qem"
    (QEConfigCLOptions.init false)
  = (success, setEmitAction EmitAction.QEM (QEConfigCLOptions.init false), [])
  /\ QEConfigCLOptions.computeOutputType (H := specExtensionTables) "out.xyz"
       (QEConfigCLOptions.init false)
     = (success, setEmitAction EmitAction.MLIR (QEConfigCLOptions.init false),
        [QEConfigCLOptions.unknownExtensionWarning "out.xyz"])
  /\ QEConfigCLOptions.computeOutputType (H := specExtensionTables) "out.qem"
       (setEmitAction EmitAction.AST (QEConfigCLOptions.init false))
     = (success, setEmitAction EmitAction.AST (QEConfigCLOptions.init false),
        [QEConfigCLOptions.mismatchWarning]).
Proof.
  split; [| split].
  - apply (computeOutputType_resolves (H := specExtensionTables) "out.qem"
             (QEConfigCLOptions.init false)); [discriminate | reflexivity | discriminate].
  - apply (computeOutputType_resolves (H := specExtensionTables) "out.xyz"
             (QEConfigCLOptions.init false)); [discriminate | reflexivity | reflexivity].
  - apply (computeOutputType_resolves (H := specExtensionTables) "out.qem"
             (setEmitAction EmitAction.AST (QEConfigCLOptions.init false)));
      discriminate.
Defined.

(** The entry point that takes the file names, run from the initial option
    storage over the default configuration. *)
Example populateConfigWithFiles_resolves :
  CLIConfigBuilder.populateConfigWithFiles (H := specExtensionTables)
    "prog.qasm" "out.qem" (QEConfigCLOptions.init false) QEConfig_default
  = CLIConfigBuilder.mkOutcome success
      (setEmitAction EmitAction.QEM
         (setInputType InputType.QASM
            (cliLayer (QEConfigCLOptions.init false) QEConfig_default)))
      (setEmitAction EmitAction.QEM
         (setInputType InputType.QASM (QEConfigCLOptions.init false)))
      [].
Proof. vm_compute. reflexivity. Qed.

(** ** The thread cap given on the command line *)

(** C10: the callback of [--max-threads] stores the parsed [int] only when
    it is strictly positive. Zero and negative values leave the option
    storage untouched, so the command-line stage then keeps whatever cap
    the configuration already had; the callback returns nothing and the
    stage returns success, hence no error is raised. *)
Theorem maxThreads_callback_positive_only (cliMaxThreads : Z)
    (cl config : QEConfig) :
  ((0 < cliMaxThreads <= INT_MAX)%Z ->
     QEConfigCLOptions.maxThreads_callback cliMaxThreads cl
     = setMaxThreads cliMaxThreads cl
     /\ CLIConfigBuilder.populateConfig
          (QEConfigCLOptions.maxThreads_callback cliMaxThreads cl) config
        = (success,
           setMaxThreads cliMaxThreads
             (CLIConfigBuilder.populateConfig cl config).2))
  /\ ((INT_MIN <= cliMaxThreads <= 0)%Z ->
     QEConfigCLOptions.maxThreads_callback cliMaxThreads cl = cl
     /\ (maxThreads cl = None ->
         (CLIConfigBuilder.populateConfig
            (QEConfigCLOptions.maxThreads_callback cliMaxThreads cl) config).1
         = success
         /\ maxThreads
              (CLIConfigBuilder.populateConfig
                 (QEConfigCLOptions.maxThreads_callback cliMaxThreads cl)
                 config).2
            = maxThreads config)).
Proof.
  unfold QEConfigCLOptions.maxThreads_callback, INT_MAX, INT_MIN.
  split; intros Hrange.
  - assert (Hpos : (0 <? cliMaxThreads)%Z = true) by (apply Z.ltb_lt; lia).
    rewrite Hpos.
    assert (Hconv : to_unsigned cliMaxThreads = cliMaxThreads).
    { unfold to_unsigned. apply Z.mod_small. lia. }
    rewrite Hconv. split; reflexivity.
  - assert (Hneg : (0 <? cliMaxThreads)%Z = false) by (apply Z.ltb_ge; lia).
    rewrite Hneg. split; [reflexivity |].
    intros Hunset. simpl. rewrite Hunset. split; reflexivity.
Qed.

Lemma maxThreads_callback_positive_only_witness :
  QEConfigCLOptions.maxThreads_callback 4 (QEConfigCLOptions.init false)
  = setMaxThreads 4 (QEConfigCLOptions.init false)
  /\ QEConfigCLOptions.maxThreads_callback 0 (QEConfigCLOptions.init false)
     = QEConfigCLOptions.init false
  /\ maxThreads
       (CLIConfigBuilder.populateConfig
          (QEConfigCLOptions.maxThreads_callback (-3)
             (QEConfigCLOptions.init false))
          (setMaxThreads 8 QEConfig_default)).2
     = Some 8%Z.
Proof.
  split; [| split].
  - apply (maxThreads_callback_positive_only 4 (QEConfigCLOptions.init false)
             QEConfig_default).
    unfold INT_MAX. lia.
  - apply (maxThreads_callback_positive_only 0 (QEConfigCLOptions.init false)
             QEConfig_default).
    unfold INT_MIN. lia.
  - apply (maxThreads_callback_positive_only (-3) (QEConfigCLOptions.init false)
             (setMaxThreads 8 QEConfig_default)).
    + unfold INT_MIN. lia.
    + reflexivity.
Defined.

(** ** Diagnostics *)

(** C5: [emitDiagnostic] runs the callback, when there is one, on the
    diagnostic before it returns, and with or without a callback returns a
    failure that carries the given error code and the text
    [<Severity>: <category description>], a line feed, and the message. *)
Theorem emitDiagnostic_always_fails (W : Type)
    (onDiagnostic : option (DiagnosticCallback W))
    (diag : Diagnostic) (ec : error_code) (w : W) :
  (emitDiagnostic onDiagnostic diag ec w).1
  = Some (mkStringError ec
            (getSeverityAsString (severity diag) +:+ ": "
               +:+ getErrorCategoryAsString (category diag) +:+ nl
               +:+ message diag))
  /\ isFailure (emitDiagnostic onDiagnostic diag ec w).1 = true
  /\ (emitDiagnostic onDiagnostic diag ec w).2
     = match onDiagnostic with
       | Some diagnosticCallback => diagnosticCallback diag w
       | None => w
       end
  /\ (forall sev cat msg,
        emitDiagnostic' onDiagnostic sev cat msg ec w
        = emitDiagnostic onDiagnostic (mkDiagnostic sev cat msg) ec w).
Proof.
  unfold emitDiagnostic', emitDiagnostic, createStringError, toString. simpl.
  repeat split.
  do 2 f_equal.
  by rewrite !string_app_assoc.
Qed.

Lemma emitDiagnostic_always_fails_witness :
  emitDiagnostic (Some (fun d log => d :: log))
    (mkDiagnostic Severity.Error ErrorCategory.QECompilationFailure "boom")
    (os_error_code 5) []
  = (Some (mkStringError (os_error_code 5)
             ("Error: Failure during compilation" +:+ nl +:+ "boom")),
     [mkDiagnostic Severity.Error ErrorCategory.QECompilationFailure "boom"])
  /\ emitDiagnostic (W := list Diagnostic) None
       (mkDiagnostic Severity.Warning ErrorCategory.QELinkSignatureWarning "odd")
       inconvertibleErrorCode []
     = (Some (mkStringError inconvertibleErrorCode
                ("Warning: Signature file format is invalid but may be processed"
                   +:+ nl +:+ "odd")),
        []).
Proof.
  split.
  - destruct (emitDiagnostic_always_fails (list Diagnostic)
                (Some (fun d log => d :: log))
                (mkDiagnostic Severity.Error ErrorCategory.QECompilationFailure
                   "boom")
                (os_error_code 5) []) as (Herr & _ & Hlog & _).
    apply injective_projections; [exact Herr | exact Hlog].
  - destruct (emitDiagnostic_always_fails (list Diagnostic) None
                (mkDiagnostic Severity.Warning
                   ErrorCategory.QELinkSignatureWarning "odd")
                inconvertibleErrorCode []) as (Herr & _ & Hlog & _).
    apply injective_projections; [exact Herr | exact Hlog].
Defined.

(** ** Context-scoped target lookup *)

Section TargetLookup.

Context {TargetSystem PluginConfiguration : Type}.

Import TargetSystemInfo.

Implicit Types (info : TargetSystemInfo.t TargetSystem PluginConfiguration).

(** C6: [getTarget] returns the instance bound exactly for the context;
    without one, the instance bound under [nullptr]; without either, an
    error and no value. After a successful [createTarget] for a context,
    [getTarget] for that context returns the instance just created, and a
    second [createTarget] for the same context replaces the binding. *)
Theorem getTarget_after_createTarget (context : N) info :
  (forall target,
     managedTargets info !! context = Some target ->
     getTarget context info = Value target)
  /\ (forall target,
     managedTargets info !! context = None ->
     managedTargets info !! nullptr = Some target ->
     getTarget context info = Value target)
  /\ (managedTargets info !! context = None ->
      managedTargets info !! nullptr = None ->
      getTarget context info
      = Failure (mkStringError inconvertibleErrorCode notFoundMessage))
  /\ (forall configuration target info',
     createTarget context configuration info = (Value target, info') ->
     getTarget context info' = Value target)
  /\ (forall configuration1 configuration2 target1 target2 info1 info2,
     createTarget context configuration1 info = (Value target1, info1) ->
     createTarget context configuration2 info1 = (Value target2, info2) ->
     getTarget context info2 = Value target2
     /\ managedTargets info2 = <[context := target2]> (managedTargets info)).
Proof.
  unfold getTarget, createTarget.
  split; [| split; [| split; [| split]]].
  - intros target Hexact. by rewrite Hexact.
  - intros target Hmiss Hnull. by rewrite Hmiss, Hnull.
  - intros Hmiss Hnull. by rewrite Hmiss, Hnull.
  - intros configuration target info' Hcreate.
    destruct (targetFactory info configuration) as [made | err];
      simplify_eq/=.
    by rewrite lookup_insert_eq.
  - intros c1 c2 target1 target2 info1 info2 Hfirst Hsecond.
    destruct (targetFactory info c1) as [made1 | err1]; simplify_eq/=.
    destruct (targetFactory info c2) as [made2 | err2]; simplify_eq/=.
    rewrite lookup_insert_eq. split; [done |].
    by rewrite insert_insert_eq.
Qed.

End TargetLookup.

Lemma getTarget_after_createTarget_witness :
  let factory (configuration : option string) : Expected string :=
    match configuration with
    | Some name => Value name
    | None => Failure (mkStringError inconvertibleErrorCode "no configuration")
    end in
  let info := TargetSystemInfo.mk factory {[ TargetSystemInfo.nullptr := "global" ]} in
  TargetSystemInfo.getTarget 7%N info = Value "global"
  /\ TargetSystemInfo.getTarget 7%N
       (TargetSystemInfo.createTarget 7%N (Some "mock") info).2
     = Value "mock"
  /\ TargetSystemInfo.getTarget 7%N (TargetSystemInfo.mk factory ∅)
     = Failure (mkStringError inconvertibleErrorCode
                  TargetSystemInfo.notFoundMessage).
Proof.
  intros factory info. split; [| split].
  - apply (getTarget_after_createTarget 7%N info); reflexivity.
  - apply (getTarget_after_createTarget 7%N info) with (configuration := Some "mock").
    reflexivity.
  - apply (getTarget_after_createTarget 7%N (TargetSystemInfo.mk factory ∅));
      reflexivity.
Defined.

(** ** Resource directories *)

Lemma string_app_eq_empty (a b : string) : a +:+ b = "" -> b = "".
Proof. destruct a; [done | discriminate]. Qed.

Lemma ends_with_separator_app (a b : string) :
  b <> "" -> ends_with_separator (a +:+ b) = ends_with_separator b.
Proof.
  intros Hb. induction a as [| c a IH]; [reflexivity |].
  rewrite string_app_cons.
  destruct (a +:+ b) as [| c' rest] eqn:Hab.
  - by apply string_app_eq_empty in Hab.
  - exact IH.
Qed.

Lemma string_eqb_app_nonempty (a b : string) :
  b <> "" -> String.eqb (a +:+ b) "" = false.
Proof.
  intros Hb. apply String.eqb_neq. intros Hab.
  by apply string_app_eq_empty in Hab.
Qed.

Section ResourcePaths.

Variable QEC_RESOURCES_INSTALL_PREFIX : string.

(** C7: on first use the resources root is the value of [QEC_RESOURCES]
    when the variable is set and the compiled-in install prefix otherwise,
    and it stays that value for later calls. A target's resource directory
    is that root with the components [targets] and the target's resource
    path appended by [llvm::sys::path::append]; for a root that does not end
    with a separator this is [<root>/targets/<name>]. *)
Theorem getTargetResourcesDir_layout (env : gmap string string)
    (target : Target) :
  let root :=
    match env !! "QEC_RESOURCES" with
    | Some e => e
    | None => QEC_RESOURCES_INSTALL_PREFIX
    end in
  (getResourcesDir QEC_RESOURCES_INSTALL_PREFIX env Statics_fresh).1 = root
  /\ (forall env',
        (getResourcesDir QEC_RESOURCES_INSTALL_PREFIX env'
           (getResourcesDir QEC_RESOURCES_INSTALL_PREFIX env Statics_fresh).2).1
        = root)
  /\ (getTargetResourcesDir QEC_RESOURCES_INSTALL_PREFIX env target
        Statics_fresh).1
     = path_append root ["targets"; getResourcePath target]
  /\ (root <> "" ->
      ends_with_separator root = false ->
      starts_with_separator (getResourcePath target) = false ->
      (getTargetResourcesDir QEC_RESOURCES_INSTALL_PREFIX env target
         Statics_fresh).1
      = root +:+ "/targets/" +:+ getResourcePath target).
Proof.
  intros root. subst root.
  unfold getTargetResourcesDir, getResourcesDir, _getResourcesDir, getenv.
  simpl.
  destruct (env !! "QEC_RESOURCES") as [e |]; simpl.
  all: split; [reflexivity |]; split; [reflexivity |];
    split; [reflexivity |].
  all: intros Hne Hend Hname; unfold path_append; simpl;
    unfold append1 at 2; rewrite Hend; simpl;
    apply String.eqb_neq in Hne; rewrite Hne; simpl;
    unfold append1;
    rewrite ends_with_separator_app by discriminate; simpl;
    rewrite Hname; simpl;
    rewrite string_eqb_app_nonempty by discriminate; simpl;
    by rewrite !string_app_assoc.
Qed.

End ResourcePaths.

Lemma getTargetResourcesDir_layout_witness :
  (getTargetResourcesDir "/usr/local/qec" {[ "QEC_RESOURCES" := "/opt/res" ]}
     (mkTarget "mock") Statics_fresh).1
  = "/opt/res/targets/mock"
  /\ (getTargetResourcesDir "/usr/local/qec" ∅ (mkTarget "mock")
        Statics_fresh).1
     = "/usr/local/qec/targets/mock".
Proof.
  split.
  - destruct (getTargetResourcesDir_layout "/usr/local/qec"
                {[ "QEC_RESOURCES" := "/opt/res" ]} (mkTarget "mock"))
      as (_ & _ & _ & Hlayout).
    rewrite Hlayout; [vm_compute; reflexivity | vm_compute; discriminate
                     | vm_compute; reflexivity | reflexivity].
  - destruct (getTargetResourcesDir_layout "/usr/local/qec" ∅ (mkTarget "mock"))
      as (_ & _ & _ & Hlayout).
    rewrite Hlayout; [vm_compute; reflexivity | vm_compute; discriminate
                     | vm_compute; reflexivity | reflexivity].
Defined.

(** ** Parsing the thread cap *)

Lemma charVal_non_digit (c : ascii) :
  isDigit c = false ->
  charVal c = None \/ exists v, charVal c = Some v /\ (10 <= v)%N.
Proof.
  unfold isDigit, charVal. intros Hc. rewrite Hc.
  destruct ((97 <=? N_of_ascii c)%N && (N_of_ascii c <=? 122)%N) eqn:Hlow.
  - right. eexists. split; [reflexivity |].
    apply andb_true_iff in Hlow as [Hlo _]. apply N.leb_le in Hlo. lia.
  - destruct ((65 <=? N_of_ascii c)%N && (N_of_ascii c <=? 90)%N) eqn:Hup.
    + right. eexists. split; [reflexivity |].
      apply andb_true_iff in Hup as [Hlo _]. apply N.leb_le in Hlo. lia.
    + by left.
Qed.

Lemma charVal_digit (c : ascii) :
  isDigit c = true ->
  charVal c = Some (N_of_ascii c - 48)%N /\ (N_of_ascii c - 48 < 10)%N.
Proof.
  unfold isDigit, charVal. intros Hc. rewrite Hc. split; [reflexivity |].
  apply andb_true_iff in Hc as [Hlo Hhi].
  apply N.leb_le in Hlo. apply N.leb_le in Hhi. lia.
Qed.

Lemma isDigit_zero : isDigit "0" = true.
Proof. reflexivity. Qed.

Lemma GetAutoSenseRadix_no_leading_zero (c : ascii) (rest : string) :
  c <> "0"%char -> GetAutoSenseRadix (String c rest) = (10%N, String c rest).
Proof.
  intros Hc. apply Ascii.eqb_neq in Hc.
  unfold GetAutoSenseRadix. cbn [startswith]. rewrite Hc.
  cbn [andb orb]. by destruct rest.
Qed.

Lemma consumeInteger_non_numeric (s : string) :
  startsWithDigit s = false -> consumeInteger s 0 = mkConsumed true s 0.
Proof.
  intros Hs. unfold consumeInteger, consumeUnsignedInteger.
  destruct s as [| c rest]; [reflexivity |].
  simpl in Hs.
  assert (Hc : c <> "0"%char) by (intros ->; by rewrite isDigit_zero in Hs).
  change ((0 =? 0)%N) with true. cbv iota.
  rewrite (GetAutoSenseRadix_no_leading_zero c rest Hc).
  cbn [consumeDigits].
  destruct (charVal_non_digit c Hs) as [-> | (v & -> & Hv)].
  - by rewrite Nat.eqb_refl.
  - apply N.leb_le in Hv. rewrite Hv. by rewrite Nat.eqb_refl.
Qed.

Lemma decimalValueFrom_ge (s : string) (acc : N) :
  (acc <= decimalValueFrom acc s)%N.
Proof.
  revert acc. induction s as [| c rest IH]; intros acc; simpl; [lia |].
  specialize (IH (acc * 10 + (N_of_ascii c - 48))%N). lia.
Qed.

Lemma consumeDigits_stops (rest : string) (acc : N) :
  startsWithDigit rest = false -> consumeDigits 10 rest acc = Some (acc, rest).
Proof.
  destruct rest as [| c rest]; [reflexivity |].
  cbn [startsWithDigit consumeDigits]. intros Hc.
  destruct (charVal_non_digit c Hc) as [-> | (v & -> & Hv)]; [reflexivity |].
  apply N.leb_le in Hv. by rewrite Hv.
Qed.

Lemma consumeDigits_decimal_prefix (digits rest : string) (acc : N) :
  allDigits digits = true ->
  startsWithDigit rest = false ->
  (decimalValueFrom acc digits < 2 ^ 64)%N ->
  consumeDigits 10 (digits +:+ rest) acc
  = Some (decimalValueFrom acc digits, rest).
Proof.
  intros Hdigits Hrest. revert acc Hdigits.
  induction digits as [| c digits IH]; intros acc Hdigits Hbound.
  - by apply consumeDigits_stops.
  - simpl in Hdigits. apply andb_true_iff in Hdigits as [Hc Hdigits].
    destruct (charVal_digit c Hc) as [Hval Hlt].
    rewrite string_app_cons.
    cbn [consumeDigits decimalValueFrom] in *. rewrite Hval.
    assert (Hradix : (10 <=? N_of_ascii c - 48)%N = false)
      by (apply N.leb_gt; lia).
    rewrite Hradix.
    pose proof (decimalValueFrom_ge digits (acc * 10 + (N_of_ascii c - 48))%N)
      as Hge.
    rewrite N.mod_small by lia.
    assert (Hdiv : ((acc * 10 + (N_of_ascii c - 48)) / 10 = acc)%N).
    { symmetry. apply (N.div_unique _ 10 acc (N_of_ascii c - 48)); lia. }
    rewrite Hdiv, N.ltb_irrefl.
    by apply IH.
Qed.

Lemma consumeDigits_decimal (s : string) (acc : N) :
  allDigits s = true ->
  (decimalValueFrom acc s < 2 ^ 64)%N ->
  consumeDigits 10 s acc = Some (decimalValueFrom acc s, "").
Proof.
  intros Hdigits Hbound.
  rewrite <- (string_app_empty_r s) at 1.
  by apply consumeDigits_decimal_prefix.
Qed.

Lemma string_length_app (a b : string) :
  String.length (a +:+ b) = (String.length a + String.length b)%nat.
Proof.
  induction a as [| x a IH]; [reflexivity |].
  rewrite string_app_cons. cbn [String.length]. by rewrite IH.
Qed.

Lemma GetAutoSenseRadix_decimal (s : string) :
  isDecimalNumeral s = true -> GetAutoSenseRadix s = (10%N, s).
Proof.
  destruct s as [| c rest]; [discriminate |].
  unfold isDecimalNumeral. intros Hs.
  apply andb_true_iff in Hs as [_ Hlead].
  apply orb_true_iff in Hlead as [Hc | Hrest].
  - apply GetAutoSenseRadix_no_leading_zero.
    apply negb_true_iff, Ascii.eqb_neq in Hc. exact Hc.
  - apply String.eqb_eq in Hrest. subst rest.
    destruct (ascii_dec c "0") as [-> | Hc]; [reflexivity |].
    by apply GetAutoSenseRadix_no_leading_zero.
Qed.

Lemma consumeInteger_decimal (s : string) :
  isDecimalNumeral s = true ->
  (decimalValue s < 2 ^ 32)%N ->
  consumeInteger s 0 = mkConsumed false "" (decimalValue s).
Proof.
  intros Hs Hbound. unfold consumeInteger, consumeUnsignedInteger.
  change ((0 =? 0)%N) with true. cbv iota.
  rewrite (GetAutoSenseRadix_decimal s Hs).
  destruct s as [| c rest]; [discriminate |].
  unfold isDecimalNumeral in Hs. apply andb_true_iff in Hs as [Hdigits _].
  rewrite (consumeDigits_decimal (String c rest) 0 Hdigits)
    by (unfold decimalValue in Hbound;
        pose proof (N.pow_lt_mono_r 2 32 64); lia).
  fold (decimalValue (String c rest)).
  cbn [String.length Nat.eqb failed parsed remaining].
  rewrite N.mod_small by exact Hbound.
  by rewrite N.eqb_refl.
Qed.

Lemma consumeInteger_decimal_prefix (c : ascii) (digits rest : string) :
  c <> "0"%char ->
  allDigits (String c digits) = true ->
  startsWithDigit rest = false ->
  (decimalValue (String c digits) < 2 ^ 32)%N ->
  consumeInteger (String c digits +:+ rest) 0
  = mkConsumed false rest (decimalValue (String c digits)).
Proof.
  intros Hc Hdigits Hrest Hbound. unfold consumeInteger, consumeUnsignedInteger.
  change ((0 =? 0)%N) with true. cbv iota.
  rewrite string_app_cons.
  rewrite (GetAutoSenseRadix_no_leading_zero c (digits +:+ rest) Hc).
  rewrite <- string_app_cons.
  rewrite (consumeDigits_decimal_prefix (String c digits) rest 0 Hdigits Hrest)
    by (unfold decimalValue in Hbound;
        pose proof (N.pow_lt_mono_r 2 32 64); lia).
  fold (decimalValue (String c digits)).
  rewrite string_app_cons.
  assert (Hlen : (String.length (String c (digits +:+ rest))
                  =? String.length rest)%nat = false).
  { apply Nat.eqb_neq. cbn [String.length]. rewrite string_length_app. lia. }
  rewrite Hlen. cbn [failed parsed remaining].
  rewrite N.mod_small by exact Hbound.
  by rewrite N.eqb_refl.
Qed.

(** ** The environment stage *)

Section EnvStage.

Import EnvVarConfigBuilder.

Variable env : gmap string string.

Lemma populateConfig_steps (config : QEConfig) :
  EnvVarConfigBuilder.populateConfig env config
  = (populateVerbosity_ env ;;; populateMaxThreads_ env) (afterNames env config).
Proof.
  unfold EnvVarConfigBuilder.populateConfig, EnvVarConfigBuilder.afterNames, andThen,
    populateConfigurationPath_, populateTarget_.
  destruct (getenv env "QEC_TARGET_CONFIG_PATH");
    destruct (getenv env "QEC_TARGET_NAME"); reflexivity.
Qed.

Lemma afterNames_frame (config : QEConfig) :
  verbosityLevel (afterNames env config) = verbosityLevel config
  /\ maxThreads (afterNames env config) = maxThreads config
  /\ targetConfigPath (afterNames env config)
     = match env !! "QEC_TARGET_CONFIG_PATH" with
       | Some path => Some path
       | None => targetConfigPath config
       end
  /\ targetName (afterNames env config)
     = match env !! "QEC_TARGET_NAME" with
       | Some name => Some name
       | None => targetName config
       end.
Proof.
  unfold EnvVarConfigBuilder.afterNames, populateConfigurationPath_,
    populateTarget_, getenv.
  destruct (env !! "QEC_TARGET_CONFIG_PATH");
    destruct (env !! "QEC_TARGET_NAME"); repeat split.
Qed.

Lemma populateVerbosity_unset (config : QEConfig) :
  env !! "QEC_VERBOSITY" = None ->
  populateVerbosity_ env config = (success, config).
Proof. intros Hv. unfold populateVerbosity_, getenv. by rewrite Hv. Qed.

Lemma populateVerbosity_token (config : QEConfig) (token : string)
    (level : QEVerbosity.t) :
  env !! "QEC_VERBOSITY" = Some token ->
  verbosityOfToken token = Some level ->
  populateVerbosity_ env config = (success, setVerbosityLevel level config).
Proof.
  intros Hv Hlevel. unfold populateVerbosity_, getenv. rewrite Hv.
  unfold verbosityOfToken in Hlevel.
  repeat match type of Hlevel with
         | (if (?a =? ?b)%string then _ else _) = _ =>
             destruct (a =? b)%string
         end; by simplify_eq.
Qed.

Lemma populateVerbosity_unrecognized (config : QEConfig) (token : string) :
  env !! "QEC_VERBOSITY" = Some token ->
  verbosityOfToken token = None ->
  populateVerbosity_ env config
  = (createStringError inconvertibleErrorCode (verbosityMessage token), config).
Proof.
  intros Hv Hlevel. unfold populateVerbosity_, getenv. rewrite Hv.
  unfold verbosityOfToken in Hlevel.
  repeat match type of Hlevel with
         | (if (?a =? ?b)%string then _ else _) = _ =>
             destruct (a =? b)%string
         end; by simplify_eq.
Qed.

Lemma verbosityOfToken_outside (token : string) :
  token <> "ERROR" -> token <> "WARN" -> token <> "INFO" -> token <> "DEBUG" ->
  verbosityOfToken token = None.
Proof.
  intros He Hw Hi Hd. unfold verbosityOfToken.
  apply String.eqb_neq in He, Hw, Hi, Hd. by rewrite He, Hw, Hi, Hd.
Qed.

Lemma verbosityTokens_level (token : string) (level : QEVerbosity.t) :
  (token, level) ∈ verbosityTokens -> verbosityOfToken token = Some level.
Proof.
  unfold verbosityTokens. intros Hin.
  repeat (apply elem_of_cons in Hin as [Hin | Hin]; [by simplify_eq |]).
  by apply elem_of_nil in Hin.
Qed.

Lemma verbosityOfToken_listed (token : string) (level : QEVerbosity.t) :
  verbosityOfToken token = Some level -> (token, level) ∈ verbosityTokens.
Proof.
  unfold verbosityOfToken, verbosityTokens. intros Hlevel.
  repeat match type of Hlevel with
         | (if (?a =? ?b)%string then _ else _) = _ =>
             destruct (String.eqb_spec a b)
         end; simplify_eq; set_solver.
Qed.

Lemma populateVerbosity_acceptable (config : QEConfig) :
  verbosityAcceptable env ->
  (populateVerbosity_ env config).1 = success
  /\ maxThreads (populateVerbosity_ env config).2 = maxThreads config.
Proof.
  unfold verbosityAcceptable. intros Hok.
  destruct (env !! "QEC_VERBOSITY") as [token |] eqn:Hv.
  - destruct Hok as [level Hlevel].
    by rewrite (populateVerbosity_token config token level Hv Hlevel).
  - by rewrite (populateVerbosity_unset config Hv).
Qed.

Lemma populateVerbosity_keeps_maxThreads (config : QEConfig) :
  maxThreads (populateVerbosity_ env config).2 = maxThreads config
  /\ ((populateVerbosity_ env config).1 = success
      \/ (populateVerbosity_ env config).2 = config).
Proof.
  destruct (env !! "QEC_VERBOSITY") as [token |] eqn:Hv.
  - destruct (verbosityOfToken token) as [level |] eqn:Hlevel.
    + rewrite (populateVerbosity_token config token level Hv Hlevel).
      split; [reflexivity | by left].
    + rewrite (populateVerbosity_unrecognized config token Hv Hlevel).
      split; [reflexivity | by right].
  - rewrite (populateVerbosity_unset config Hv). split; [reflexivity | by left].
Qed.

Lemma populateMaxThreads_keeps_verbosity (config : QEConfig) :
  verbosityLevel (populateMaxThreads_ env config).2 = verbosityLevel config.
Proof.
  unfold populateMaxThreads_.
  destruct (getenv env "QEC_MAX_THREADS") as [s |]; [| reflexivity].
  by destruct (failed (consumeInteger s 0)).
Qed.

(** C4, as the code has it: the environment stage fails with a descriptive
    message when [QEC_VERBOSITY] holds a token other than ERROR, WARN, INFO
    and DEBUG, and when [QEC_MAX_THREADS] is empty or does not begin with a
    decimal digit; in both cases the field keeps the value it had, so
    nothing falls back silently. Each of the four tokens sets its level,
    and a decimal numeral without a leading zero and below 2^32 sets the
    thread cap to the number it denotes. *)
Theorem EnvVarConfigBuilder_validates (config : QEConfig) :
  let r := EnvVarConfigBuilder.populateConfig env config in
  (forall token,
     env !! "QEC_VERBOSITY" = Some token ->
     token <> "ERROR" -> token <> "WARN" -> token <> "INFO" ->
     token <> "DEBUG" ->
     r.1 = createStringError inconvertibleErrorCode (verbosityMessage token)
     /\ verbosityLevel r.2 = verbosityLevel config
     /\ maxThreads r.2 = maxThreads config)
  /\ (forall value,
     env !! "QEC_MAX_THREADS" = Some value ->
     startsWithDigit value = false ->
     isFailure r.1 = true
     /\ maxThreads r.2 = maxThreads config
     /\ (verbosityAcceptable env ->
         r.1 = createStringError inconvertibleErrorCode
                 (maxThreadsMessage value)))
  /\ (forall token level,
     env !! "QEC_VERBOSITY" = Some token ->
     (token, level) ∈ verbosityTokens ->
     verbosityLevel r.2 = level
     /\ (env !! "QEC_MAX_THREADS" = None -> r.1 = success))
  /\ (forall value,
     env !! "QEC_MAX_THREADS" = Some value ->
     isDecimalNumeral value = true ->
     (decimalValue value < 2 ^ 32)%N ->
     verbosityAcceptable env ->
     r.1 = success
     /\ maxThreads r.2 = Some (Z.of_N (decimalValue value))).
Proof.
  intros r. subst r. rewrite populateConfig_steps.
  destruct (afterNames_frame config) as (Hlevel0 & Hthreads0 & _ & _).
  set (c0 := afterNames env config) in *.
  unfold andThen.
  split; [| split; [| split]].
  - intros token Hv He Hw Hi Hd.
    rewrite (populateVerbosity_unrecognized c0 token Hv
               (verbosityOfToken_outside token He Hw Hi Hd)).
    by simpl.
  - intros value Ht Hnon.
    destruct (populateVerbosity_keeps_maxThreads c0) as [Hkeep Hcase].
    assert (Hparse : populateMaxThreads_ env (populateVerbosity_ env c0).2
                     = (createStringError inconvertibleErrorCode
                          (maxThreadsMessage value),
                        (populateVerbosity_ env c0).2)).
    { unfold populateMaxThreads_, getenv. rewrite Ht.
      by rewrite (consumeInteger_non_numeric value Hnon). }
    destruct (populateVerbosity_ env c0) as [[err |] c1] eqn:Hstage;
      simpl in *.
    + split; [reflexivity |]. split; [congruence |].
      intros Hok.
      pose proof (populateVerbosity_acceptable c0 Hok) as [Hsucc _].
      rewrite Hstage in Hsucc. discriminate.
    + rewrite Hparse. simpl. split; [reflexivity |]. split; [congruence |].
      done.
  - intros token level Hv Htoken%verbosityTokens_level.
    rewrite (populateVerbosity_token c0 token level Hv Htoken).
    unfold success. cbv beta iota.
    split.
    + by rewrite populateMaxThreads_keeps_verbosity.
    + intros Ht. unfold populateMaxThreads_, getenv. by rewrite Ht.
  - intros value Ht Hnum Hbound Hok.
    destruct (populateVerbosity_acceptable c0 Hok) as [Hsucc Hkeep].
    destruct (populateVerbosity_ env c0) as [[err |] c1]; [discriminate |].
    unfold populateMaxThreads_, getenv. rewrite Ht.
    by rewrite (consumeInteger_decimal value Hnum Hbound).
Qed.

End EnvStage.

Lemma EnvVarConfigBuilder_validates_witness :
  (EnvVarConfigBuilder.populateConfig {[ "QEC_VERBOSITY" := "LOUD" ]}
     QEConfig_default).1
  = createStringError inconvertibleErrorCode
      (EnvVarConfigBuilder.verbosityMessage "LOUD")
  /\ isFailure
       (EnvVarConfigBuilder.populateConfig {[ "QEC_MAX_THREADS" := "many" ]}
          QEConfig_default).1
     = true
  /\ verbosityLevel
       (EnvVarConfigBuilder.populateConfig {[ "QEC_VERBOSITY" := "DEBUG" ]}
          QEConfig_default).2
     = QEVerbosity.Debug
  /\ maxThreads
       (EnvVarConfigBuilder.populateConfig {[ "QEC_MAX_THREADS" := "8" ]}
          QEConfig_default).2
     = Some 8%Z.
Proof.
  split; [| split; [| split]].
  - destruct (EnvVarConfigBuilder_validates {[ "QEC_VERBOSITY" := "LOUD" ]}
                QEConfig_default) as (Hbad & _).
    apply (Hbad "LOUD"); [reflexivity | discriminate ..].
  - destruct (EnvVarConfigBuilder_validates {[ "QEC_MAX_THREADS" := "many" ]}
                QEConfig_default) as (_ & Hthreads & _).
    apply (Hthreads "many"); reflexivity.
  - destruct (EnvVarConfigBuilder_validates {[ "QEC_VERBOSITY" := "DEBUG" ]}
                QEConfig_default) as (_ & _ & Htoken & _).
    apply (Htoken "DEBUG"); [reflexivity |].
    unfold verbosityTokens. do 3 apply list_elem_of_further.
    apply list_elem_of_here.
  - destruct (EnvVarConfigBuilder_validates {[ "QEC_MAX_THREADS" := "8" ]}
                QEConfig_default) as (_ & _ & _ & Hcap).
    apply (Hcap "8"); [reflexivity | reflexivity | reflexivity | exact I].
Defined.

(** Values of [QEC_MAX_THREADS] on which the stage does not do what a
    reader of "malformed values fail, valid integers set the cap" expects.
    The value is read by a prefix parser with automatic radix detection
    into an [unsigned int]: [4294967296] and [08] are refused, [010] sets
    the cap to 8, and [12abc] and [3.5] are accepted as 12 and 3. *)
Lemma maxThreads_values_outside_the_claim :
  let run (value : string) :=
    EnvVarConfigBuilder.populateConfig {[ "QEC_MAX_THREADS" := value ]}
      QEConfig_default in
  (isFailure (run "4294967296").1 = true
   /\ maxThreads (run "4294967296").2 = None)
  /\ run "010" = (success, setMaxThreads 8 QEConfig_default)
  /\ isFailure (run "08").1 = true
  /\ run "12abc" = (success, setMaxThreads 12 QEConfig_default)
  /\ run "3.5" = (success, setMaxThreads 3 QEConfig_default).
Proof. intros run. split_and!; vm_compute; reflexivity. Qed.

(** X1: the prefix parser accepts a value that begins with decimal digits
    (the first one not a zero) and goes on with something that is not a
    digit: the stage succeeds, the leading digits become the thread cap and
    the rest of the value is ignored. *)
Theorem populateMaxThreads_accepts_numeric_prefix (env : gmap string string)
    (config : QEConfig) (c : ascii) (digits rest : string) :
  env !! "QEC_MAX_THREADS" = Some (String c digits +:+ rest) ->
  c <> "0"%char ->
  allDigits (String c digits) = true ->
  startsWithDigit rest = false ->
  (decimalValue (String c digits) < 2 ^ 32)%N ->
  verbosityAcceptable env ->
  (EnvVarConfigBuilder.populateConfig env config).1 = success
  /\ maxThreads (EnvVarConfigBuilder.populateConfig env config).2
     = Some (Z.of_N (decimalValue (String c digits))).
Proof.
  intros Ht Hc Hdigits Hrest Hbound Hok.
  rewrite populateConfig_steps. unfold andThen.
  destruct (populateVerbosity_acceptable env (EnvVarConfigBuilder.afterNames env config) Hok)
    as [Hsucc _].
  destruct (EnvVarConfigBuilder.populateVerbosity_ env
              (EnvVarConfigBuilder.afterNames env config))
    as [[err |] c1]; [discriminate |].
  unfold EnvVarConfigBuilder.populateMaxThreads_, getenv. rewrite Ht.
  by rewrite (consumeInteger_decimal_prefix c digits rest Hc Hdigits Hrest Hbound).
Qed.

Lemma populateMaxThreads_accepts_numeric_prefix_witness :
  (EnvVarConfigBuilder.populateConfig {[ "QEC_MAX_THREADS" := "12abc" ]}
     QEConfig_default).1
  = success
  /\ maxThreads
       (EnvVarConfigBuilder.populateConfig {[ "QEC_MAX_THREADS" := "12abc" ]}
          QEConfig_default).2
     = Some 12%Z.
Proof.
  destruct (populateMaxThreads_accepts_numeric_prefix
              {[ "QEC_MAX_THREADS" := "12abc" ]} QEConfig_default
              "1" "2" "abc")
    as [Hsucc Hcap];
    [reflexivity | discriminate | reflexivity | reflexivity
    | vm_compute; reflexivity | exact I |].
  split; [exact Hsucc |].
  etrans; [exact Hcap | vm_compute; reflexivity].
Defined.

(** ** Stages as ordered overlays *)

Lemma CLIConfigBuilder_populateConfig_layer (cl config : QEConfig) :
  CLIConfigBuilder.populateConfig cl config = (success, cliLayer cl config).
Proof.
  unfold CLIConfigBuilder.populateConfig, cliLayer, cliVerbosity.
  f_equal.
  destruct (emitBytecodeVersion (base cl)), (targetName cl),
    (targetConfigPath cl), (maxThreads cl);
    simpl; repeat case_decide; simpl; try reflexivity; congruence.
Qed.

Lemma EnvVarConfigBuilder_populateConfig_layer (env : gmap string string)
    (config : QEConfig) :
  (EnvVarConfigBuilder.populateConfig env config).1 = success ->
  EnvVarConfigBuilder.populateConfig env config = (success, envLayer env config).
Proof.
  unfold EnvVarConfigBuilder.populateConfig, andThen,
    EnvVarConfigBuilder.populateConfigurationPath_,
    EnvVarConfigBuilder.populateTarget_,
    EnvVarConfigBuilder.populateVerbosity_,
    EnvVarConfigBuilder.populateMaxThreads_,
    envLayer, envVerbosity, envMaxThreads, verbosityOfToken, getenv.
  destruct config as [b tn tp it ea vl f1 f2 f3 f4 pn f5 f6 f7 f8 pp dp mt].
  destruct (env !! "QEC_TARGET_CONFIG_PATH") as [path |];
    destruct (env !! "QEC_TARGET_NAME") as [name |];
    destruct (env !! "QEC_VERBOSITY") as [token |];
    destruct (env !! "QEC_MAX_THREADS") as [value |];
    cbn [fst snd overlay mbind option_bind fmap option_fmap option_map
         default setTargetConfigPath setTargetName setVerbosityLevel
         setMaxThreads base targetName targetConfigPath inputType emitAction
         verbosityLevel addTargetPassesFlag showTargetsFlag showPayloadsFlag
         showConfigFlag payloadName emitPlaintextPayloadFlag includeSourceFlag
         compileTargetIRFlag bypassPayloadTargetCompilationFlag passPlugins
         dialectPlugins maxThreads];
    repeat match goal with
           | |- context [String.eqb ?a ?b] => destruct (String.eqb a b)
           | |- context [failed ?r] => destruct (failed r)
           end;
    cbn [fst snd default]; intros Hok; try discriminate Hok; reflexivity.
Qed.

Lemma envVerbosity_sets_level (env : gmap string string) (config : QEConfig)
    (level : QEVerbosity.t) :
  envVerbosity env = Some level ->
  verbosityLevel (EnvVarConfigBuilder.populateConfig env config).2 = level.
Proof.
  unfold envVerbosity. intros Henv.
  destruct (env !! "QEC_VERBOSITY") as [token |] eqn:Hv; [| discriminate].
  simpl in Henv.
  rewrite populateConfig_steps. unfold andThen.
  rewrite (populateVerbosity_token env _ token level Hv Henv).
  unfold success. cbv beta iota.
  by rewrite populateMaxThreads_keeps_verbosity.
Qed.

(** C1, as the code has it: when the environment stage and then the
    command-line stage are applied to a configuration, the result is the
    command-line layer over the environment layer over that configuration.
    For target name, target configuration path, thread cap and verbosity
    the later stage's value wins when it has one and the earlier value
    stays otherwise; so an environment verbosity survives a command line
    without a verbosity flag, and a command-line verbosity overrides the
    environment. The precedence is the order of application: with the
    command-line stage applied first and the environment stage second, a
    set [QEC_VERBOSITY] replaces the command-line verbosity. *)
Theorem stages_overlay_in_application_order (env : gmap string string)
    (cl config : QEConfig) :
  (EnvVarConfigBuilder.populateConfig env config).1 = success ->
  let envStage := populateConfig (EnvVarConfigBuilder.mk env) in
  let cliStage := populateConfig (CLIConfigBuilder.mk cl) in
  let r := applyStages [envStage; cliStage] config in
  r = (success, cliLayer cl (envLayer env config))
  /\ targetName r.2
     = overlay (targetName cl)
         (overlay (env !! "QEC_TARGET_NAME") (targetName config))
  /\ targetConfigPath r.2
     = overlay (targetConfigPath cl)
         (overlay (env !! "QEC_TARGET_CONFIG_PATH") (targetConfigPath config))
  /\ maxThreads r.2
     = overlay (maxThreads cl) (overlay (envMaxThreads env) (maxThreads config))
  /\ Some (verbosityLevel r.2)
     = overlay (cliVerbosity cl)
         (overlay (envVerbosity env) (Some (verbosityLevel config)))
  /\ (forall level,
        envVerbosity env = Some level ->
        verbosityLevel cl = QEVerbosity._VerbosityCnt ->
        verbosityLevel r.2 = level)
  /\ (verbosityLevel cl <> QEVerbosity._VerbosityCnt ->
      verbosityLevel r.2 = verbosityLevel cl)
  /\ (forall level,
        envVerbosity env = Some level ->
        verbosityLevel (applyStages [cliStage; envStage] config).2 = level).
Proof.
  intros Hok envStage cliStage r.
  assert (Hr : r = (success, cliLayer cl (envLayer env config))).
  { subst r envStage cliStage. cbn [applyStages populateConfig
      EnvVarConfigBuilder_builder CLIConfigBuilder_builder
      EnvVarConfigBuilder.environ CLIConfigBuilder.clOptionsConfig].
    unfold andThen at 1.
    rewrite (EnvVarConfigBuilder_populateConfig_layer env config Hok).
    unfold success at 1. cbv beta iota. unfold andThen.
    by rewrite CLIConfigBuilder_populateConfig_layer. }
  split; [exact Hr |]. rewrite Hr. cbn [snd].
  split; [reflexivity |]. split; [reflexivity |]. split; [reflexivity |].
  assert (Hlevel : Some (verbosityLevel (cliLayer cl (envLayer env config)))
                   = overlay (cliVerbosity cl)
                       (overlay (envVerbosity env)
                          (Some (verbosityLevel config)))).
  { cbn [cliLayer envLayer verbosityLevel].
    by destruct (cliVerbosity cl), (envVerbosity env). }
  split; [exact Hlevel |].
  split; [| split].
  - intros level Henv Hcl. cbn [cliLayer envLayer verbosityLevel].
    unfold cliVerbosity. rewrite decide_True by exact Hcl.
    by rewrite Henv.
  - intros Hcl. cbn [cliLayer envLayer verbosityLevel].
    unfold cliVerbosity. by rewrite decide_False by exact Hcl.
  - intros level Henv. subst envStage cliStage.
    cbn [applyStages populateConfig EnvVarConfigBuilder_builder
      CLIConfigBuilder_builder EnvVarConfigBuilder.environ
      CLIConfigBuilder.clOptionsConfig].
    unfold andThen at 1. rewrite CLIConfigBuilder_populateConfig_layer.
    unfold success at 1. cbv beta iota. unfold andThen.
    pose proof (envVerbosity_sets_level env (cliLayer cl config) level Henv)
      as Hset.
    by destruct (EnvVarConfigBuilder.populateConfig env (cliLayer cl config))
      as [[err |] c].
Qed.

Lemma stages_overlay_in_application_order_witness :
  let env : gmap string string :=
    {[ "QEC_VERBOSITY" := "DEBUG"; "QEC_MAX_THREADS" := "8" ]} in
  let envStage := populateConfig (EnvVarConfigBuilder.mk env) in
  let quiet := QEConfigCLOptions.init false in
  let loud :=
    QEConfigCLOptions.verbosity_parsed QEVerbosity.Error
      (QEConfigCLOptions.init false) in
  (EnvVarConfigBuilder.populateConfig env QEConfig_default).1 = success
  /\ verbosityLevel
       (applyStages [envStage; populateConfig (CLIConfigBuilder.mk quiet)]
          QEConfig_default).2
     = QEVerbosity.Debug
  /\ verbosityLevel
       (applyStages [envStage; populateConfig (CLIConfigBuilder.mk loud)]
          QEConfig_default).2
     = QEVerbosity.Error
  /\ maxThreads
       (applyStages [envStage; populateConfig (CLIConfigBuilder.mk quiet)]
          QEConfig_default).2
     = Some 8%Z.
Proof.
  intros env envStage quiet loud.
  assert (Hok : (EnvVarConfigBuilder.populateConfig env QEConfig_default).1
                = success) by (vm_compute; reflexivity).
  split; [exact Hok |]. split; [| split].
  - destruct (stages_overlay_in_application_order env quiet QEConfig_default Hok)
      as (_ & _ & _ & _ & _ & Hsurvives & _).
    apply Hsurvives; vm_compute; reflexivity.
  - destruct (stages_overlay_in_application_order env loud QEConfig_default Hok)
      as (_ & _ & _ & _ & _ & _ & Hwins & _).
    etrans; [apply Hwins; vm_compute; discriminate | reflexivity].
  - destruct (stages_overlay_in_application_order env quiet QEConfig_default Hok)
      as (_ & _ & _ & Hcap & _).
    etrans; [exact Hcap | vm_compute; reflexivity].
Defined.

(** Three places where the code departs from an overlay law that holds for
    every field and in every order. With [QEC_VERBOSITY=DEBUG] in the
    environment and [--verbosity=error] on the command line, applying the
    command-line stage first and the environment stage second succeeds and
    leaves the verbosity at [Debug]. A configuration that holds an IRDL file
    name loses it to a command line that gives no [--irdl-file]. An
    explicit [-X=mlir] in the option storage does not reach the
    configuration through [populateConfig(config)]. *)
Lemma overlay_law_counterexamples :
  let env : gmap string string := {[ "QEC_VERBOSITY" := "DEBUG" ]} in
  let cl :=
    QEConfigCLOptions.verbosity_parsed QEVerbosity.Error
      (QEConfigCLOptions.init false) in
  let envStage := populateConfig (EnvVarConfigBuilder.mk env) in
  let cliStage := populateConfig (CLIConfigBuilder.mk cl) in
  let withIrdl :=
    CommandLine.setBytecodeVersionAndIrdlFile None "ops.irdl" QEConfig_default in
  let explicitX := setInputType InputType.MLIR (QEConfigCLOptions.init false) in
  (verbosityLevel cl = QEVerbosity.Error
   /\ verbosityLevel (applyStages [envStage; cliStage] QEConfig_default).2
      = QEVerbosity.Error
   /\ (applyStages [cliStage; envStage] QEConfig_default).1 = success
   /\ verbosityLevel (applyStages [cliStage; envStage] QEConfig_default).2
      = QEVerbosity.Debug
   /\ verbosityLevel (applyStages [cliStage; envStage] QEConfig_default).2
      <> verbosityLevel cl)
  /\ (irdlFileFlag (base withIrdl) = "ops.irdl"
      /\ irdlFileFlag (base (QEConfigCLOptions.init false)) = ""
      /\ irdlFileFlag
           (base (CLIConfigBuilder.populateConfig
                    (QEConfigCLOptions.init false) withIrdl).2)
         = "")
  /\ (inputType explicitX = InputType.MLIR
      /\ inputType
           (CLIConfigBuilder.populateConfig explicitX QEConfig_default).2
         = InputType.Undetected).
Proof.
  intros env cl envStage cliStage withIrdl explicitX.
  split_and!; try (vm_compute; reflexivity).
  vm_compute. discriminate.
Qed.

(** ** The formatted text of a diagnostic *)

Lemma split_at_first (c : ascii) (a b x y : string) :
  occurs c a = false ->
  occurs c b = false ->
  a +:+ String c x = b +:+ String c y ->
  a = b /\ x = y.
Proof.
  revert b. induction a as [| d a IH]; intros [| e b] Ha Hb Heq.
  - rewrite !string_app_nil_l in Heq. by simplify_eq.
  - rewrite string_app_nil_l, string_app_cons in Heq. simplify_eq.
    cbn [occurs] in Hb. by rewrite Ascii.eqb_refl in Hb.
  - rewrite string_app_nil_l, string_app_cons in Heq. simplify_eq.
    cbn [occurs] in Ha. by rewrite Ascii.eqb_refl in Ha.
  - rewrite !string_app_cons in Heq. simplify_eq.
    cbn [occurs] in Ha, Hb.
    apply orb_false_iff in Ha as [_ Ha]. apply orb_false_iff in Hb as [_ Hb].
    destruct (IH b Ha Hb ltac:(done)) as [-> ->]. done.
Qed.

Lemma getSeverityAsString_no_colon (sev : Severity.t) :
  occurs ":" (getSeverityAsString sev) = false.
Proof. by destruct sev. Qed.

Lemma getSeverityAsString_inj (s1 s2 : Severity.t) :
  getSeverityAsString s1 = getSeverityAsString s2 -> s1 = s2.
Proof. by destruct s1, s2. Qed.

Lemma getErrorCategoryAsString_one_line (category : ErrorCategory.t) :
  occurs (ascii_of_nat 10) (getErrorCategoryAsString category) = false.
Proof. by destruct category. Qed.

Lemma getErrorCategoryAsString_inj (c1 c2 : ErrorCategory.t) :
  getErrorCategoryAsString c1 = getErrorCategoryAsString c2 -> c1 = c2.
Proof. by destruct c1, c2. Qed.

(** X2: the text [Diagnostic::toString] produces determines the
    diagnostic: two diagnostics with the same text have the same severity,
    category and message. No severity name contains a colon, no category
    description contains a line feed, and both tables are one-to-one. *)
Theorem toString_injective (d1 d2 : Diagnostic) :
  toString d1 = toString d2 -> d1 = d2.
Proof.
  destruct d1 as [s1 c1 m1], d2 as [s2 c2 m2]. unfold toString. simpl.
  rewrite !string_app_assoc. intros Heq.
  change (": " +:+ ?z) with (String ":" (String " " z)) in Heq.
  apply split_at_first in Heq as [Hsev Hrest];
    [| apply getSeverityAsString_no_colon ..].
  apply getSeverityAsString_inj in Hsev. simplify_eq.
  unfold nl in Hrest. rewrite !string_app_cons, !string_app_nil_l in Hrest.
  apply split_at_first in Hrest as [Hcat Hmsg];
    [| apply getErrorCategoryAsString_one_line ..].
  apply getErrorCategoryAsString_inj in Hcat. by simplify_eq.
Qed.

Lemma toString_injective_witness :
  mkDiagnostic Severity.Error ErrorCategory.QECompilationFailure ("bo" +:+ "om")
  = mkDiagnostic Severity.Error ErrorCategory.QECompilationFailure "boom".
Proof.
  apply (toString_injective
           (mkDiagnostic Severity.Error ErrorCategory.QECompilationFailure
              ("bo" +:+ "om"))
           (mkDiagnostic Severity.Error ErrorCategory.QECompilationFailure
              "boom")).
  reflexivity.
Defined.

(** ** More on the environment stage *)

Section EnvStageOutcome.

Import EnvVarConfigBuilder.

Variable env : gmap string string.

(** What the thread-cap step does to the result, by the parse of the
    value. *)
Lemma populateMaxThreads_cases (config : QEConfig) :
  match env !! "QEC_MAX_THREADS" with
  | None => populateMaxThreads_ env config = (success, config)
  | Some value =>
      if failed (consumeInteger value 0)
      then populateMaxThreads_ env config
           = (createStringError inconvertibleErrorCode
                (maxThreadsMessage (remaining (consumeInteger value 0))),
              config)
      else populateMaxThreads_ env config
           = (success,
              setMaxThreads (Z.of_N (parsed (consumeInteger value 0))) config)
  end.
Proof.
  unfold populateMaxThreads_, getenv.
  destruct (env !! "QEC_MAX_THREADS") as [value |]; [| reflexivity].
  by destruct (failed (consumeInteger value 0)).
Qed.

Lemma populateVerbosity_cases (config : QEConfig) :
  match env !! "QEC_VERBOSITY" with
  | None => populateVerbosity_ env config = (success, config)
  | Some token =>
      match verbosityOfToken token with
      | Some level =>
          populateVerbosity_ env config
          = (success, setVerbosityLevel level config)
      | None =>
          populateVerbosity_ env config
          = (createStringError inconvertibleErrorCode (verbosityMessage token),
             config)
      end
  end.
Proof.
  destruct (env !! "QEC_VERBOSITY") as [token |] eqn:Hv.
  - destruct (verbosityOfToken token) as [level |] eqn:Hlevel.
    + exact (populateVerbosity_token env config token level Hv Hlevel).
    + exact (populateVerbosity_unrecognized env config token Hv Hlevel).
  - exact (populateVerbosity_unset env config Hv).
Qed.

(** X3: the environment stage is not atomic and touches four fields only.
    Whatever the outcome, the target name and the target configuration path
    found in the environment are written, and every field other than these
    two, the verbosity and the thread cap keeps its value. When the stage
    fails the thread cap is unchanged, and when it fails on the verbosity
    token the verbosity is unchanged as well. *)
Theorem EnvVarConfigBuilder_partial_update (config : QEConfig) :
  let r := EnvVarConfigBuilder.populateConfig env config in
  r.2 = mkQEConfig (base config)
          (overlay (env !! "QEC_TARGET_NAME") (targetName config))
          (overlay (env !! "QEC_TARGET_CONFIG_PATH") (targetConfigPath config))
          (inputType config) (emitAction config) (verbosityLevel r.2)
          (addTargetPassesFlag config) (showTargetsFlag config)
          (showPayloadsFlag config) (showConfigFlag config)
          (payloadName config) (emitPlaintextPayloadFlag config)
          (includeSourceFlag config) (compileTargetIRFlag config)
          (bypassPayloadTargetCompilationFlag config)
          (passPlugins config) (dialectPlugins config) (maxThreads r.2)
  /\ (isFailure r.1 = true -> maxThreads r.2 = maxThreads config)
  /\ (~ verbosityAcceptable env ->
      isFailure r.1 = true /\ verbosityLevel r.2 = verbosityLevel config).
Proof.
  intros r. subst r. rewrite populateConfig_steps. unfold andThen.
  pose proof (populateVerbosity_cases (afterNames env config)) as Hv.
  assert (Hnames : afterNames env config
    = mkQEConfig (base config)
          (overlay (env !! "QEC_TARGET_NAME") (targetName config))
          (overlay (env !! "QEC_TARGET_CONFIG_PATH") (targetConfigPath config))
          (inputType config) (emitAction config) (verbosityLevel config)
          (addTargetPassesFlag config) (showTargetsFlag config)
          (showPayloadsFlag config) (showConfigFlag config)
          (payloadName config) (emitPlaintextPayloadFlag config)
          (includeSourceFlag config) (compileTargetIRFlag config)
          (bypassPayloadTargetCompilationFlag config)
          (passPlugins config) (dialectPlugins config) (maxThreads config)).
  { unfold afterNames, populateConfigurationPath_, populateTarget_, getenv.
    destruct config.
    by destruct (env !! "QEC_TARGET_CONFIG_PATH"), (env !! "QEC_TARGET_NAME"). }
  unfold verbosityAcceptable.
  destruct (env !! "QEC_VERBOSITY") as [token |].
  - destruct (verbosityOfToken token) as [level |].
    + rewrite Hv. unfold success. cbv beta iota.
      pose proof (populateMaxThreads_cases
                    (setVerbosityLevel level (afterNames env config))) as Ht.
      destruct (env !! "QEC_MAX_THREADS") as [value |].
      * destruct (failed (consumeInteger value 0)); rewrite Ht, Hnames;
          simpl; (split; [reflexivity |]); split; try done;
          intros Hbad; exfalso; apply Hbad; by eexists.
      * rewrite Ht, Hnames. simpl. split; [reflexivity |]. split; [done |].
        intros Hbad; exfalso; apply Hbad; by eexists.
    + rewrite Hv, Hnames. simpl. split; [reflexivity |]. split; [done |].
      done.
  - rewrite Hv. unfold success. cbv beta iota.
    pose proof (populateMaxThreads_cases (afterNames env config)) as Ht.
    destruct (env !! "QEC_MAX_THREADS") as [value |].
    + destruct (failed (consumeInteger value 0)); rewrite Ht, Hnames;
        simpl; (split; [reflexivity |]); split; try done;
        intros Hbad; exfalso; by apply Hbad.
    + rewrite Ht, Hnames. simpl. split; [reflexivity |]. split; [done |].
      intros Hbad; exfalso; by apply Hbad.
Qed.

(** X4: whether the environment stage fails, and with which error, depends
    on the environment alone and never on the incoming configuration. It
    succeeds exactly when [QEC_VERBOSITY] is unset or one of the four
    tokens and [QEC_MAX_THREADS] is unset or accepted by the parser. *)
Theorem EnvVarConfigBuilder_outcome (config config' : QEConfig) :
  (EnvVarConfigBuilder.populateConfig env config).1
  = (EnvVarConfigBuilder.populateConfig env config').1
  /\ ((EnvVarConfigBuilder.populateConfig env config).1 = success
      <-> verbosityAcceptable env
          /\ match env !! "QEC_MAX_THREADS" with
             | Some value => failed (consumeInteger value 0) = false
             | None => True
             end).
Proof.
  rewrite !populateConfig_steps. unfold andThen.
  pose proof (populateVerbosity_cases (afterNames env config)) as Hv.
  pose proof (populateVerbosity_cases (afterNames env config')) as Hv'.
  unfold verbosityAcceptable.
  destruct (env !! "QEC_VERBOSITY") as [token |];
    [destruct (verbosityOfToken token) as [level |] |];
    rewrite Hv, Hv'; unfold success; cbv beta iota;
    try match goal with
        | |- context [populateMaxThreads_ env ?c1] =>
            match goal with
            | |- context [populateMaxThreads_ env ?c2] =>
                lazymatch c1 with
                | c2 => fail
                | _ =>
                    pose proof (populateMaxThreads_cases c1) as Ht;
                    pose proof (populateMaxThreads_cases c2) as Ht'
                end
            end
        end.
  - destruct (env !! "QEC_MAX_THREADS") as [value |];
      [destruct (failed (consumeInteger value 0)) |];
      rewrite ?Ht, ?Ht'; simpl; (split; [reflexivity |]);
      split; try done; try (intros _; split; [by eexists | done]);
      intros [_ ?]; done.
  - simpl. split; [reflexivity |]. split; [done |].
    intros [[level Hlevel] _]. done.
  - destruct (env !! "QEC_MAX_THREADS") as [value |];
      [destruct (failed (consumeInteger value 0)) |];
      rewrite ?Ht, ?Ht'; simpl; (split; [reflexivity |]);
      split; try done; intros [_ ?]; done.
Qed.

End EnvStageOutcome.

(** X5: applying the environment stage a second time changes nothing: it
    returns the same result and leaves the configuration as the first
    application left it, whether the stage succeeds or fails. *)
Theorem EnvVarConfigBuilder_idempotent (env : gmap string string)
    (config : QEConfig) :
  EnvVarConfigBuilder.populateConfig env
    (EnvVarConfigBuilder.populateConfig env config).2
  = EnvVarConfigBuilder.populateConfig env config.
Proof.
  unfold EnvVarConfigBuilder.populateConfig, andThen,
    EnvVarConfigBuilder.populateConfigurationPath_,
    EnvVarConfigBuilder.populateTarget_,
    EnvVarConfigBuilder.populateVerbosity_,
    EnvVarConfigBuilder.populateMaxThreads_, getenv.
  destruct config as [b tn tp it ea vl f1 f2 f3 f4 pn f5 f6 f7 f8 pp dp mt].
  destruct (env !! "QEC_TARGET_CONFIG_PATH") as [path |];
    destruct (env !! "QEC_TARGET_NAME") as [name |];
    destruct (env !! "QEC_VERBOSITY") as [token |];
    destruct (env !! "QEC_MAX_THREADS") as [value |];
    cbn [fst snd setTargetConfigPath setTargetName setVerbosityLevel
         setMaxThreads base targetName targetConfigPath inputType emitAction
         verbosityLevel addTargetPassesFlag showTargetsFlag showPayloadsFlag
         showConfigFlag payloadName emitPlaintextPayloadFlag includeSourceFlag
         compileTargetIRFlag bypassPayloadTargetCompilationFlag passPlugins
         dialectPlugins maxThreads];
    repeat match goal with
           | |- context [String.eqb ?a ?b] => destruct (String.eqb a b)
           | |- context [failed ?r] => destruct (failed r)
           end;
    reflexivity.
Qed.

(** ** The range of the thread cap *)

Lemma consumeInteger_decimal_too_large (s : string) :
  isDecimalNumeral s = true ->
  (2 ^ 32 <= decimalValue s < 2 ^ 64)%N ->
  consumeInteger s 0 = mkConsumed true "" (decimalValue s).
Proof.
  intros Hs Hbound. unfold consumeInteger, consumeUnsignedInteger.
  change ((0 =? 0)%N) with true. cbv iota.
  rewrite (GetAutoSenseRadix_decimal s Hs).
  destruct s as [| c rest]; [discriminate |].
  unfold isDecimalNumeral in Hs. apply andb_true_iff in Hs as [Hdigits _].
  rewrite (consumeDigits_decimal (String c rest) 0 Hdigits)
    by (unfold decimalValue in Hbound; lia).
  fold (decimalValue (String c rest)).
  cbn [String.length Nat.eqb failed parsed remaining].
  assert (Hwrap : (decimalValue (String c rest) mod 2 ^ 32
                   =? decimalValue (String c rest))%N = false).
  { apply N.eqb_neq. intros Heq.
    pose proof (N.mod_upper_bound (decimalValue (String c rest)) (2 ^ 32)).
    lia. }
  by rewrite Hwrap.
Qed.

(** X6: a thread cap written as a decimal numeral that does not fit an
    [unsigned int] (from 2^32 up to 2^64 - 1) makes the environment stage
    fail instead of wrapping around, and the configured cap keeps its
    value. The digits have been consumed when the range check fails, so
    the error message quotes an empty string rather than the value. *)
Theorem populateMaxThreads_rejects_overflow (env : gmap string string)
    (config : QEConfig) (value : string) :
  env !! "QEC_MAX_THREADS" = Some value ->
  isDecimalNumeral value = true ->
  (2 ^ 32 <= decimalValue value < 2 ^ 64)%N ->
  isFailure (EnvVarConfigBuilder.populateConfig env config).1 = true
  /\ maxThreads (EnvVarConfigBuilder.populateConfig env config).2
     = maxThreads config
  /\ (verbosityAcceptable env ->
      (EnvVarConfigBuilder.populateConfig env config).1
      = createStringError inconvertibleErrorCode
          (EnvVarConfigBuilder.maxThreadsMessage "")).
Proof.
  intros Ht Hnum Hbound.
  pose proof (populateMaxThreads_cases env) as Hcases. rewrite Ht in Hcases.
  rewrite (consumeInteger_decimal_too_large value Hnum Hbound) in Hcases.
  cbn [failed remaining] in Hcases.
  destruct (afterNames_frame env config) as (_ & Hframe & _).
  rewrite populateConfig_steps. unfold andThen.
  destruct (populateVerbosity_keeps_maxThreads env
              (EnvVarConfigBuilder.afterNames env config)) as [Hkeep _].
  destruct (EnvVarConfigBuilder.populateVerbosity_ env
              (EnvVarConfigBuilder.afterNames env config))
    as [[err |] c1] eqn:Hstage; cbn [fst snd] in *.
  - split; [reflexivity |]. split; [congruence |].
    intros Hok.
    destruct (populateVerbosity_acceptable env
                (EnvVarConfigBuilder.afterNames env config) Hok) as [Hsucc _].
    rewrite Hstage in Hsucc. discriminate.
  - rewrite Hcases. cbn [fst snd]. split; [reflexivity |].
    split; [congruence | done].
Qed.

Lemma populateMaxThreads_rejects_overflow_witness :
  isFailure
    (EnvVarConfigBuilder.populateConfig {[ "QEC_MAX_THREADS" := "4294967296" ]}
       QEConfig_default).1
  = true
  /\ maxThreads
       (EnvVarConfigBuilder.populateConfig
          {[ "QEC_MAX_THREADS" := "4294967296" ]} QEConfig_default).2
     = None.
Proof.
  destruct (populateMaxThreads_rejects_overflow
              {[ "QEC_MAX_THREADS" := "4294967296" ]} QEConfig_default
              "4294967296")
    as (Hfail & Hkeep & _);
    [reflexivity | reflexivity | vm_compute; split; [discriminate | reflexivity] |].
  split; [exact Hfail | exact Hkeep].
Defined.

(** ** More on the command-line stage *)

(** X7: applying the command-line stage twice is the same as applying it
    once except for the plugin paths, which are appended a second time;
    with no plugin path in the option storage the second application
    changes nothing. *)
Theorem CLIConfigBuilder_reapplied (cl config : QEConfig) :
  let once := (CLIConfigBuilder.populateConfig cl config).2 in
  let twice := (CLIConfigBuilder.populateConfig cl once).2 in
  twice = mkQEConfig (base once) (targetName once) (targetConfigPath once)
            (inputType once) (emitAction once) (verbosityLevel once)
            (addTargetPassesFlag once) (showTargetsFlag once)
            (showPayloadsFlag once) (showConfigFlag once) (payloadName once)
            (emitPlaintextPayloadFlag once) (includeSourceFlag once)
            (compileTargetIRFlag once)
            (bypassPayloadTargetCompilationFlag once)
            (passPlugins config ++ passPlugins cl ++ passPlugins cl)
            (dialectPlugins config ++ dialectPlugins cl ++ dialectPlugins cl)
            (maxThreads once)
  /\ (passPlugins cl = [] -> dialectPlugins cl = [] -> twice = once)
  /\ (twice = once -> passPlugins cl = [] /\ dialectPlugins cl = []).
Proof.
  intros once twice. subst once twice.
  rewrite !CLIConfigBuilder_populateConfig_layer. cbn [snd].
  assert (Htwice : cliLayer cl (cliLayer cl config)
    = mkQEConfig (base (cliLayer cl config)) (targetName (cliLayer cl config))
        (targetConfigPath (cliLayer cl config)) (inputType (cliLayer cl config))
        (emitAction (cliLayer cl config)) (verbosityLevel (cliLayer cl config))
        (addTargetPassesFlag (cliLayer cl config))
        (showTargetsFlag (cliLayer cl config))
        (showPayloadsFlag (cliLayer cl config))
        (showConfigFlag (cliLayer cl config)) (payloadName (cliLayer cl config))
        (emitPlaintextPayloadFlag (cliLayer cl config))
        (includeSourceFlag (cliLayer cl config))
        (compileTargetIRFlag (cliLayer cl config))
        (bypassPayloadTargetCompilationFlag (cliLayer cl config))
        (passPlugins config ++ passPlugins cl ++ passPlugins cl)
        (dialectPlugins config ++ dialectPlugins cl ++ dialectPlugins cl)
        (maxThreads (cliLayer cl config))).
  { unfold cliLayer, cliVerbosity. simpl.
    rewrite <- !(assoc_L (++)).
    destruct (emitBytecodeVersion (base cl)), (targetName cl),
      (targetConfigPath cl), (maxThreads cl);
      simpl; repeat case_decide; simpl; try reflexivity; congruence. }
  split; [exact Htwice |]. split.
  - intros Hp Hd. rewrite Htwice. unfold cliLayer. simpl.
    rewrite Hp, Hd. reflexivity.
  - intros Heq. rewrite Htwice in Heq.
    apply (f_equal passPlugins) in Heq as Hp.
    apply (f_equal dialectPlugins) in Heq as Hd.
    unfold cliLayer in Hp, Hd. simpl in Hp, Hd.
    apply (f_equal length) in Hp. apply (f_equal length) in Hd.
    rewrite !length_app in Hp, Hd.
    split; apply length_zero_iff_nil; lia.
Qed.

(** ** The entry point that takes the file names *)

Section WithFiles.

Context `{ExtensionTables}.

Import QEConfigCLOptions CLIConfigBuilder.

Lemma setInputType_same (cl : QEConfig) : setInputType (inputType cl) cl = cl.
Proof. by destruct cl. Qed.

Lemma setEmitAction_same (cl : QEConfig) : setEmitAction (emitAction cl) cl = cl.
Proof. by destruct cl. Qed.

Lemma computeInputType_outcome (inputFilename : string) (cl : QEConfig) :
  ((computeInputType inputFilename cl).1 = success
   /\ (inputType (computeInputType inputFilename cl).2 = InputType.Undetected ->
       inputFilename = "-"))
  \/ (computeInputType inputFilename cl
      = (createStringError inconvertibleErrorCode autodetectMessage, cl)
      /\ inputFilename <> "-"
      /\ inputType cl = InputType.Undetected).
Proof.
  unfold computeInputType, getInputType.
  destruct (decide (inputType cl = InputType.Undetected)) as [Hin | Hin].
  - destruct (shouldEmitBytecode cl).
    + left. destruct (negb (inputFilename =? "-")); simpl;
        try case_bool_decide; simpl; split; try done; simpl in *; congruence.
    + destruct (String.eqb_spec inputFilename "-") as [Hname | Hname]; simpl.
      * left. by split.
      * case_bool_decide as Hderived; simpl in *.
        -- right. rewrite Hderived, <- Hin. by rewrite setInputType_same.
        -- left. split; [reflexivity |]. intros Hu. simpl in Hu. congruence.
  - left. split; [reflexivity |]. intros Hu. simpl in Hu. congruence.
Qed.

Lemma computeInputType_already_set (inputFilename : string) (cl : QEConfig) :
  inputType cl <> InputType.Undetected ->
  computeInputType inputFilename cl = (success, cl).
Proof.
  intros Hset. unfold computeInputType, getInputType. by rewrite decide_False.
Qed.

Lemma computeOutputType_shape (outputFilename : string) (cl : QEConfig) :
  (computeOutputType outputFilename cl).1.1 = success
  /\ emitAction (computeOutputType outputFilename cl).1.2
     <> EmitAction.Undetected
  /\ (computeOutputType outputFilename cl).1.2
     = setEmitAction (emitAction (computeOutputType outputFilename cl).1.2) cl
  /\ (emitAction cl <> EmitAction.Undetected ->
      (computeOutputType outputFilename cl).1.2 = cl).
Proof.
  unfold computeOutputType, getEmitAction.
  destruct (String.eqb outputFilename "-"); simpl;
    repeat case_bool_decide; repeat case_decide; simpl;
    repeat split; try done; try congruence;
    by rewrite ?setEmitAction_same.
Qed.

Lemma populateConfigWithFiles_eq (inputFilename outputFilename : string)
    (cl config : QEConfig) :
  populateConfigWithFiles inputFilename outputFilename cl config
  = match computeInputType inputFilename cl with
    | (Some err, cl1) => mkOutcome (Some err) (cliLayer cl config) cl1 []
    | (None, cl1) =>
        mkOutcome None
          (setEmitAction
             (emitAction (computeOutputType outputFilename cl1).1.2)
             (setInputType (inputType cl1) (cliLayer cl config)))
          (computeOutputType outputFilename cl1).1.2
          (computeOutputType outputFilename cl1).2
    end.
Proof.
  unfold populateConfigWithFiles.
  rewrite CLIConfigBuilder_populateConfig_layer. unfold success.
  destruct (computeInputType inputFilename cl) as [[err |] cl1];
    [reflexivity |].
  destruct (computeOutputType_shape outputFilename cl1) as (Hsucc & _).
  destruct (computeOutputType outputFilename cl1) as [[err cl2] errs].
  cbn [fst snd] in *. unfold success in Hsucc. by subst err.
Qed.

(** X8: the entry point with file names either succeeds or fails with the
    autodetect error. On success the configuration's input kind and emit
    action are those of the option storage, whatever the configuration held
    before; the emit action is never [Undetected] and the input kind is
    [Undetected] only for the standard-input name. On failure the
    configuration has nevertheless received the command-line settings,
    while its input kind and emit action, the option storage and the error
    stream are untouched. *)
Theorem populateConfigWithFiles_outcome (inputFilename outputFilename : string)
    (cl config : QEConfig) :
  let o := populateConfigWithFiles inputFilename outputFilename cl config in
  (result o = success
   \/ result o = createStringError inconvertibleErrorCode autodetectMessage)
  /\ (result o = success ->
      config_out o
      = setEmitAction (emitAction (cl_out o))
          (setInputType (inputType (cl_out o)) (cliLayer cl config))
      /\ emitAction (config_out o) <> EmitAction.Undetected
      /\ (inputType (config_out o) = InputType.Undetected ->
          inputFilename = "-"))
  /\ (isFailure (result o) = true ->
      inputFilename <> "-"
      /\ inputType cl = InputType.Undetected
      /\ config_out o = cliLayer cl config
      /\ cl_out o = cl
      /\ errs_out o = []).
Proof.
  intros o. subst o. rewrite populateConfigWithFiles_eq.
  unfold success, createStringError.
  destruct (computeInputType_outcome inputFilename cl)
    as [[Hok Hkind] | (Hfail & Hname & Hunset)].
  - destruct (computeInputType inputFilename cl) as [err cl1].
    cbn [fst snd] in Hok, Hkind. unfold success in Hok. subst err.
    destruct (computeOutputType_shape outputFilename cl1)
      as (_ & Hset & Hshape & _).
    cbn [result config_out cl_out errs_out].
    split; [by left |]. split; [| discriminate].
    intros _.
    assert (Hkept : inputType (computeOutputType outputFilename cl1).1.2
                    = inputType cl1) by (rewrite Hshape; reflexivity).
    rewrite Hkept. split; [reflexivity |]. split; [exact Hset |].
    exact Hkind.
  - rewrite Hfail. unfold createStringError.
    cbn [result config_out cl_out errs_out].
    split; [by right |]. split; [discriminate |]. by intros _.
Qed.

Lemma populateConfigWithFiles_first_success
    (inputFilename outputFilename : string) (cl config : QEConfig) :
  result (populateConfigWithFiles inputFilename outputFilename cl config)
  = success ->
  inputType
    (config_out (populateConfigWithFiles inputFilename outputFilename cl config))
  = inputType
      (cl_out (populateConfigWithFiles inputFilename outputFilename cl config))
  /\ emitAction
       (config_out
          (populateConfigWithFiles inputFilename outputFilename cl config))
     = emitAction
         (cl_out (populateConfigWithFiles inputFilename outputFilename cl config))
  /\ emitAction
       (cl_out (populateConfigWithFiles inputFilename outputFilename cl config))
     <> EmitAction.Undetected.
Proof.
  rewrite populateConfigWithFiles_eq. unfold success.
  destruct (computeInputType inputFilename cl) as [[err |] cl1];
    [discriminate |].
  destruct (computeOutputType_shape outputFilename cl1)
    as (_ & Hset & Hshape & _).
  cbn [result config_out cl_out errs_out].
  intros _. split; [by rewrite Hshape | by split].
Qed.

(** X9: the resolution is remembered in the process-wide option storage.
    Once a call with file names has succeeded and resolved an input kind,
    every later call that starts from the storage it left succeeds, leaves
    the storage as it is, and gives the configuration the first call's
    input kind and emit action, whatever the new file names are. *)
Theorem populateConfigWithFiles_sticky
    (inputFilename outputFilename inputFilename' outputFilename' : string)
    (cl config config' : QEConfig) :
  let first := populateConfigWithFiles inputFilename outputFilename cl config in
  result first = success ->
  inputType (cl_out first) <> InputType.Undetected ->
  let second :=
    populateConfigWithFiles inputFilename' outputFilename' (cl_out first)
      config' in
  result second = success
  /\ cl_out second = cl_out first
  /\ inputType (config_out second) = inputType (config_out first)
  /\ emitAction (config_out second) = emitAction (config_out first).
Proof.
  intros first Hfirst Hkind second.
  destruct (populateConfigWithFiles_first_success inputFilename outputFilename
              cl config Hfirst) as (Hin & Hact & Hset).
  fold first in Hin, Hact, Hset.
  subst second. rewrite populateConfigWithFiles_eq.
  rewrite (computeInputType_already_set inputFilename' (cl_out first) Hkind).
  unfold success.
  destruct (computeOutputType_shape outputFilename' (cl_out first))
    as (_ & _ & _ & Hsame).
  rewrite (Hsame Hset).
  cbn [result config_out cl_out errs_out].
  by rewrite Hin, Hact.
Qed.

End WithFiles.

Lemma populateConfigWithFiles_sticky_witness :
  let first :=
    CLIConfigBuilder.populateConfigWithFiles (H := specExtensionTables)
      "prog.qasm" "out.qem" (QEConfigCLOptions.init false) QEConfig_default in
  let second :=
    CLIConfigBuilder.populateConfigWithFiles (H := specExtensionTables)
      "other.mlir" "other.mlir" (CLIConfigBuilder.cl_out first)
      QEConfig_default in
  CLIConfigBuilder.result second = success
  /\ inputType (CLIConfigBuilder.config_out second) = InputType.QASM
  /\ emitAction (CLIConfigBuilder.config_out second) = EmitAction.QEM.
Proof.
  intros first second.
  destruct (populateConfigWithFiles_sticky (H := specExtensionTables)
              "prog.qasm" "out.qem" "other.mlir" "other.mlir"
              (QEConfigCLOptions.init false) QEConfig_default QEConfig_default)
    as (Hsucc & _ & Hin & Hact); [reflexivity | discriminate |].
  split; [exact Hsucc |]. split.
  - etrans; [exact Hin | reflexivity].
  - etrans; [exact Hact | reflexivity].
Defined.

(** ** Resource directories for other roots *)

Lemma ends_with_separator_snoc (root : string) :
  ends_with_separator (root +:+ "/") = true.
Proof. by rewrite ends_with_separator_app. Qed.

Lemma strip_separators_id (component : string) :
  starts_with_separator component = false ->
  strip_separators component = component.
Proof. destruct component as [| c rest]; simpl; [done | by intros ->]. Qed.

(** X10: an empty [QEC_RESOURCES] counts as set: the install prefix is not
    used and the target's directory is the relative path
    [targets/<name>]. A root that ends with a separator is joined without
    doubling it. Both hold for a resource path that does not begin with a
    separator. *)
Theorem getTargetResourcesDir_other_roots (prefix : string)
    (env : gmap string string) (target : Target) (root : string) :
  starts_with_separator (getResourcePath target) = false ->
  (env !! "QEC_RESOURCES" = Some "" ->
   (getTargetResourcesDir prefix env target Statics_fresh).1
   = "targets/" +:+ getResourcePath target)
  /\ (env !! "QEC_RESOURCES" = Some (root +:+ "/") ->
      (getTargetResourcesDir prefix env target Statics_fresh).1
      = root +:+ "/targets/" +:+ getResourcePath target).
Proof.
  intros Hname.
  unfold getTargetResourcesDir, getResourcesDir, _getResourcesDir, getenv.
  split; intros Henv; rewrite Henv; cbn [getResourcesDir_resourcesDir
    _getResourcesDir_resourcesDir Statics_fresh fst snd path_append fold_left].
  - unfold append1. cbn [ends_with_separator]. rewrite Hname. reflexivity.
  - unfold append1 at 2. rewrite ends_with_separator_snoc.
    rewrite (strip_separators_id "targets") by reflexivity.
    unfold append1.
    rewrite ends_with_separator_app by discriminate.
    cbn [ends_with_separator is_separator]. rewrite Hname.
    rewrite string_eqb_app_nonempty by discriminate.
    cbn [negb andb]. by rewrite !string_app_assoc.
Qed.

Lemma getTargetResourcesDir_other_roots_witness :
  (getTargetResourcesDir "/usr/local/qec" {[ "QEC_RESOURCES" := "" ]}
     (mkTarget "mock") Statics_fresh).1
  = "targets/mock"
  /\ (getTargetResourcesDir "/usr/local/qec" {[ "QEC_RESOURCES" := "/opt/res/" ]}
        (mkTarget "mock") Statics_fresh).1
     = "/opt/res/targets/mock".
Proof.
  split.
  - destruct (getTargetResourcesDir_other_roots "/usr/local/qec"
                {[ "QEC_RESOURCES" := "" ]} (mkTarget "mock") "")
      as [Hempty _]; [reflexivity |].
    etrans; [apply Hempty; reflexivity | reflexivity].
  - destruct (getTargetResourcesDir_other_roots "/usr/local/qec"
                {[ "QEC_RESOURCES" := "/opt/res/" ]} (mkTarget "mock")
                "/opt/res")
      as [_ Hslash]; [reflexivity |].
    etrans; [apply Hslash; reflexivity | reflexivity].
Defined.

(** ** The bytecode version given on the command line *)

Lemma isDigit_not_minus (c : ascii) :
  isDigit c = true -> Ascii.eqb c "-" = false.
Proof.
  intros Hc. destruct (Ascii.eqb_spec c "-") as [-> | _]; [| reflexivity].
  discriminate Hc.
Qed.

Lemma consumeUnsignedInteger_decimal_prefix (c : ascii) (digits rest : string) :
  allDigits (String c digits) = true ->
  startsWithDigit rest = false ->
  (decimalValue (String c digits) < 2 ^ 64)%N ->
  consumeUnsignedInteger (String c digits +:+ rest) 10
  = mkConsumed false rest (decimalValue (String c digits)).
Proof.
  intros Hdigits Hrest Hbound. unfold consumeUnsignedInteger.
  change ((10 =? 0)%N) with false. cbv iota.
  rewrite (consumeDigits_decimal_prefix (String c digits) rest 0 Hdigits Hrest)
    by exact Hbound.
  fold (decimalValue (String c digits)).
  rewrite string_app_cons.
  assert (Hlen : (String.length (String c (digits +:+ rest))
                  =? String.length rest)%nat = false).
  { apply Nat.eqb_neq. cbn [String.length]. rewrite string_length_app. lia. }
  by rewrite Hlen.
Qed.

Lemma consumeUnsignedInteger_decimal (c : ascii) (digits : string) :
  allDigits (String c digits) = true ->
  (decimalValue (String c digits) < 2 ^ 64)%N ->
  consumeUnsignedInteger (String c digits) 10
  = mkConsumed false "" (decimalValue (String c digits)).
Proof.
  intros Hdigits Hbound.
  rewrite <- (string_app_empty_r (String c digits)) at 1.
  by apply consumeUnsignedInteger_decimal_prefix.
Qed.

Lemma to_signed64_small (x : N) :
  (x < 2 ^ 63)%N -> to_signed64 x = Z.of_N x.
Proof.
  intros Hx. unfold to_signed64.
  by rewrite (proj2 (N.ltb_lt x (2 ^ 63)) Hx).
Qed.

Lemma to_signed64_large (x : N) :
  (2 ^ 63 <= x)%N -> to_signed64 x = (Z.of_N x - 2 ^ 64)%Z.
Proof.
  intros Hx. unfold to_signed64.
  by rewrite (proj2 (N.ltb_ge x (2 ^ 63)) Hx).
Qed.

(** X11: [BytecodeVersionParser::parse] reads a whole decimal integer. A
    run of decimal digits below 2^63 gives that number, leading zeros
    included; with a minus sign in front, digits up to 2^63 give the
    negative number, so negative versions are accepted. Digits followed by
    anything else, a number from 2^63 on without a sign, the empty
    argument and a lone minus sign are rejected with the message that
    quotes the argument. *)
Theorem BytecodeVersionParser_parse_decimal (c : ascii) (digits rest : string) :
  allDigits (String c digits) = true ->
  let number := decimalValue (String c digits) in
  ((number < 2 ^ 63)%N ->
     BytecodeVersionParser.parse (String c digits) = inr (Z.of_N number))
  /\ ((number <= 2 ^ 63)%N ->
     BytecodeVersionParser.parse ("-" +:+ String c digits)
     = inr (- Z.of_N number)%Z)
  /\ ((number < 2 ^ 64)%N -> rest <> "" -> startsWithDigit rest = false ->
     BytecodeVersionParser.parse (String c digits +:+ rest)
     = inl (BytecodeVersionParser.invalidArgument (String c digits +:+ rest)))
  /\ ((2 ^ 63 <= number < 2 ^ 64)%N ->
     BytecodeVersionParser.parse (String c digits)
     = inl (BytecodeVersionParser.invalidArgument (String c digits)))
  /\ BytecodeVersionParser.parse ""
     = inl (BytecodeVersionParser.invalidArgument "")
  /\ BytecodeVersionParser.parse "-"
     = inl (BytecodeVersionParser.invalidArgument "-").
Proof.
  intros Hdigits number.
  assert (Hc : Ascii.eqb c "-" = false).
  { cbn [allDigits] in Hdigits. apply andb_true_iff in Hdigits as [Hc _].
    by apply isDigit_not_minus. }
  assert (Hplus : forall tail, startswith (String c tail) "-" = false).
  { intros tail. cbn [startswith]. by rewrite Hc. }
  unfold BytecodeVersionParser.parse, getAsSignedInteger, consumeSignedInteger.
  split; [| split; [| split; [| split; [| split]]]].
  - intros Hbound. rewrite Hplus. cbn [negb].
    rewrite (consumeUnsignedInteger_decimal c digits Hdigits)
      by (fold number; lia).
    cbn [failed parsed remaining orb]. fold number.
    rewrite (to_signed64_small number Hbound).
    assert (Hsign : (Z.of_N number <? 0)%Z = false) by (apply Z.ltb_ge; lia).
    by rewrite Hsign.
  - intros Hbound. rewrite string_app_cons, string_app_nil_l.
    cbn [startswith substr1]. rewrite Ascii.eqb_refl. cbn [andb negb].
    rewrite (consumeUnsignedInteger_decimal c digits Hdigits)
      by (fold number; lia).
    cbn [failed parsed remaining orb]. fold number.
    destruct (N.eq_dec number 0%N) as [Hzero | Hpos].
    + rewrite Hzero. reflexivity.
    + assert (Hneg : ((2 ^ 64 - number) mod 2 ^ 64 = 2 ^ 64 - number)%N)
        by (apply N.mod_small; lia).
      rewrite Hneg, to_signed64_large by lia.
      assert (Hsign : (0 <? Z.of_N (2 ^ 64 - number) - 2 ^ 64)%Z = false)
        by (apply Z.ltb_ge; lia).
      rewrite Hsign. cbn [failedSigned remainingSigned parsedSigned].
      cbn [String.eqb negb]. f_equal. lia.
  - intros Hbound Hrest Hstop. rewrite string_app_cons, Hplus. cbn [negb].
    rewrite <- string_app_cons.
    rewrite (consumeUnsignedInteger_decimal_prefix c digits rest Hdigits Hstop)
      by (fold number; lia).
    cbn [failed parsed remaining orb]. fold number.
    destruct ((to_signed64 number <? 0)%Z); [reflexivity |].
    cbn [failedSigned remainingSigned].
    apply String.eqb_neq in Hrest. by rewrite Hrest.
  - intros Hbound. rewrite Hplus. cbn [negb].
    rewrite (consumeUnsignedInteger_decimal c digits Hdigits)
      by (fold number; lia).
    cbn [failed parsed remaining orb]. fold number.
    rewrite to_signed64_large by lia.
    assert (Hsign : (Z.of_N number - 2 ^ 64 <? 0)%Z = true)
      by (apply Z.ltb_lt; lia).
    by rewrite Hsign.
  - reflexivity.
  - reflexivity.
Qed.

Lemma BytecodeVersionParser_parse_decimal_witness :
  BytecodeVersionParser.parse "007" = inr 7%Z
  /\ BytecodeVersionParser.parse "-12" = inr (-12)%Z
  /\ BytecodeVersionParser.parse "12abc"
     = inl (BytecodeVersionParser.invalidArgument "12abc").
Proof.
  split; [| split].
  - destruct (BytecodeVersionParser_parse_decimal "0" "07" "" ltac:(reflexivity))
      as (Hplain & _).
    apply Hplain. vm_compute. reflexivity.
  - destruct (BytecodeVersionParser_parse_decimal "1" "2" "" ltac:(reflexivity))
      as (_ & Hminus & _).
    apply Hminus. vm_compute. discriminate.
  - destruct (BytecodeVersionParser_parse_decimal "1" "2" "abc"
                ltac:(reflexivity))
      as (_ & _ & Hjunk & _).
    apply Hjunk; [vm_compute; reflexivity | discriminate | reflexivity].
Defined.

(** ** Option storage reached by parsing *)

Lemma fold_left_invariant {A B : Type} (f : A -> B -> A) (P : A -> Prop)
    (Q : B -> Prop) (l : list B) (a : A) :
  (forall a b, Q b -> P a -> P (f a b)) ->
  Forall Q l -> P a -> P (fold_left f l a).
Proof.
  intros Hstep Hl. revert a.
  induction Hl as [| b l Hb _ IH]; intros a Ha; [exact Ha |].
  cbn [fold_left]. apply IH. by apply Hstep.
Qed.

Lemma provide_storageInvariant (registered : bool)
    (occ : CommandLine.Occurrence) (p : CommandLine.Parse) :
  CommandLine.inIntRange occ ->
  CommandLine.storageInvariant (CommandLine.storage p) ->
  CommandLine.storageInvariant
    (CommandLine.storage (CommandLine.provide registered occ p)).
Proof.
  unfold CommandLine.storageInvariant, shouldEmitBytecode.
  intros Hrange (Hbc & Hcap & Hname & Hpath).
  destruct occ as [o value | arg | arg | arg | arg | arg | arg
                  | path loaded | path loaded | arg | value];
    cbn [CommandLine.provide].
  - by cbn.
  - by destruct (CommandLine.findValue CommandLine.inputTypeValues arg).
  - by destruct (CommandLine.findValue CommandLine.emitActionValues arg).
  - unfold QEConfigCLOptions.targetConfigPath_callback.
    destruct (String.eqb_spec arg "") as [-> | Harg]; cbn; [done |].
    split_and!; [done .. | congruence].
  - unfold QEConfigCLOptions.targetName_callback.
    destruct (String.eqb_spec arg "") as [-> | Harg]; cbn; [done |].
    split_and!; [done | done | congruence | done].
  - by destruct (BytecodeVersionParser.parse arg).
  - by cbn.
  - by destruct loaded.
  - by destruct registered, loaded.
  - by destruct (CommandLine.findValue CommandLine.verbosityValues arg).
  - unfold QEConfigCLOptions.maxThreads_callback.
    cbn [CommandLine.inIntRange] in Hrange. unfold INT_MIN, INT_MAX in *.
    destruct (Z.ltb_spec 0 value) as [Hpos | Hneg]; cbn; [| done].
    split_and!; [done | | done | done].
    intros v Hv. simplify_eq. unfold to_unsigned.
    rewrite Z.mod_small by lia. lia.
Qed.

Section ParsedStorage.

Context `{ExtensionTables}.

(** X12: however the command line reads, the option storage it leaves has
    the bytecode-emission flag clear, a thread cap that is absent or a
    positive [int], and a target name and configuration path that are
    absent or non-empty. Hence no command line, [--emit=bytecode]
    included, makes [computeInputType] assume bytecode input: without [-X]
    the input kind is the one of the file name's extension. *)
Theorem parseCommandLine_storage (registered NOVERIFY : bool)
    (occs : list CommandLine.Occurrence) :
  Forall CommandLine.inIntRange occs ->
  let cl :=
    CommandLine.storage
      (CommandLine.parseCommandLine registered occs
         (QEConfigCLOptions.init NOVERIFY)) in
  CommandLine.storageInvariant cl
  /\ (forall inputFilename,
        inputType cl = InputType.Undetected ->
        (QEConfigCLOptions.computeInputType inputFilename cl).2
        = setInputType
            (fileExtensionToInputType (getExtension inputFilename)) cl).
Proof.
  intros Hrange cl.
  assert (Hinv : CommandLine.storageInvariant cl).
  { subst cl. unfold CommandLine.parseCommandLine.
    apply (fold_left_invariant _
             (fun p => CommandLine.storageInvariant (CommandLine.storage p))
             CommandLine.inIntRange); [| exact Hrange |].
    - intros p occ. apply provide_storageInvariant.
    - unfold CommandLine.storageInvariant. cbn. by repeat split. }
  split; [exact Hinv |].
  intros inputFilename Hunset. destruct Hinv as (Hbc & _).
  unfold QEConfigCLOptions.computeInputType, getInputType.
  rewrite decide_True by exact Hunset. rewrite Hbc.
  by destruct (negb (inputFilename =? "-")
               && bool_decide
                    (inputType
                       (setInputType
                          (fileExtensionToInputType (getExtension inputFilename))
                          cl) = InputType.Undetected)).
Qed.

End ParsedStorage.

Lemma parseCommandLine_storage_witness :
  let cl :=
    CommandLine.storage
      (CommandLine.parseCommandLine true
         [CommandLine.emit "bytecode"; CommandLine.max_threads 0;
          CommandLine.target ""]
         (QEConfigCLOptions.init false)) in
  maxThreads cl = None
  /\ targetName cl = None
  /\ (QEConfigCLOptions.computeInputType (H := specExtensionTables)
        "prog.mlir" cl).2
     = setInputType InputType.MLIR cl.
Proof.
  intros cl.
  destruct (parseCommandLine_storage (H := specExtensionTables) true false
              [CommandLine.emit "bytecode"; CommandLine.max_threads 0;
               CommandLine.target ""])
    as [_ Hkind].
  { repeat constructor; unfold INT_MIN, INT_MAX; lia. }
  split; [reflexivity |]. split; [reflexivity |].
  etrans; [apply Hkind; reflexivity | reflexivity].
Defined.

(** ** Plugin paths given on the command line *)

Lemma fold_provide_plugins (registered : bool)
    (occs : list CommandLine.Occurrence) (p : CommandLine.Parse) :
  let q := fold_left (fun p occ => CommandLine.provide registered occ p) occs p in
  passPlugins (CommandLine.storage q)
  = (passPlugins (CommandLine.storage p)
     ++ CommandLine.passPluginPaths occs)%list
  /\ dialectPlugins (CommandLine.storage q)
     = (dialectPlugins (CommandLine.storage p)
        ++ (if registered then CommandLine.dialectPluginPaths occs else []))%list
  /\ CommandLine.errs q
     = (CommandLine.errs p ++ CommandLine.pluginWarnings registered occs)%list.
Proof.
  revert p. induction occs as [| occ occs IH]; intros p.
  - cbn. destruct registered; by rewrite !app_nil_r.
  - cbn [fold_left]. cbv zeta in IH |- *.
    destruct (IH (CommandLine.provide registered occ p)) as (-> & -> & ->).
    clear IH.
    unfold CommandLine.passPluginPaths, CommandLine.dialectPluginPaths,
      CommandLine.pluginWarnings.
    destruct occ as [o value | arg | arg | arg | arg | arg | arg
                    | path loaded | path loaded | arg | value];
      cbn [CommandLine.provide omap list_omap];
      repeat match goal with
             | |- context [CommandLine.findValue ?t ?a] =>
                 destruct (CommandLine.findValue t a)
             | |- context [BytecodeVersionParser.parse ?a] =>
                 destruct (BytecodeVersionParser.parse a)
             | |- context [String.eqb ?a ?b] => destruct (String.eqb a b)
             | |- context [Z.ltb ?a ?b] => destruct (Z.ltb a b)
             end;
      unfold QEConfigCLOptions.targetConfigPath_callback,
        QEConfigCLOptions.targetName_callback,
        QEConfigCLOptions.maxThreads_callback;
      repeat match goal with
             | |- context [String.eqb ?a ?b] => destruct (String.eqb a b)
             | |- context [Z.ltb ?a ?b] => destruct (Z.ltb a b)
             end;
      try (destruct loaded); try (destruct registered);
      cbn; rewrite <- ?(assoc_L (++)); try done.
Qed.

(** X13: the paths of [--load-pass-plugin] and [--load-dialect-plugin] are
    recorded in command-line order whether or not the plugin loaded; every
    failed load writes one warning and none of them makes the parse fail.
    After the command-line stage the configuration's [passPlugins] member
    holds the pass plugin paths, but [getPassPlugins] returns the dialect
    plugin paths. Dialect plugin paths are recorded only once
    [registerCLOptions] has installed their callback. *)
Theorem parseCommandLine_plugins (registered NOVERIFY : bool)
    (occs : list CommandLine.Occurrence) (config : QEConfig) :
  let p :=
    CommandLine.parseCommandLine registered occs
      (QEConfigCLOptions.init NOVERIFY) in
  let config' :=
    (CLIConfigBuilder.populateConfig (CommandLine.storage p) config).2 in
  passPlugins (CommandLine.storage p) = CommandLine.passPluginPaths occs
  /\ dialectPlugins (CommandLine.storage p)
     = (if registered then CommandLine.dialectPluginPaths occs else [])
  /\ CommandLine.errs p = CommandLine.pluginWarnings registered occs
  /\ passPlugins config'
     = (passPlugins config ++ CommandLine.passPluginPaths occs)%list
  /\ getPassPlugins config'
     = (dialectPlugins config
        ++ (if registered then CommandLine.dialectPluginPaths occs else []))%list
  /\ (Forall CommandLine.isPluginOccurrence occs ->
      CommandLine.errorParsing p = false).
Proof.
  intros p config'.
  destruct (fold_provide_plugins registered occs
              (CommandLine.mkParse false (QEConfigCLOptions.init NOVERIFY) []))
    as (Hpass & Hdialect & Herrs).
  fold (CommandLine.parseCommandLine registered occs
          (QEConfigCLOptions.init NOVERIFY)) in Hpass, Hdialect, Herrs.
  fold p in Hpass, Hdialect, Herrs. cbn in Hpass, Hdialect, Herrs.
  split_and!; try done.
  - subst config'. rewrite CLIConfigBuilder_populateConfig_layer.
    cbn [snd cliLayer passPlugins]. by rewrite Hpass.
  - subst config'. rewrite CLIConfigBuilder_populateConfig_layer.
    unfold getPassPlugins. cbn [snd cliLayer dialectPlugins].
    by rewrite Hdialect.
  - intros Honly. subst p. unfold CommandLine.parseCommandLine.
    apply (fold_left_invariant _
             (fun p => CommandLine.errorParsing p = false)
             CommandLine.isPluginOccurrence);
      [| exact Honly | reflexivity].
    intros q occ Hocc Hq.
    destruct occ; try done; cbn [CommandLine.provide];
      try (destruct loaded); try (destruct registered); by cbn.
Qed.

Lemma parseCommandLine_plugins_witness :
  let p :=
    CommandLine.parseCommandLine true
      [CommandLine.load_pass_plugin "a.so" false;
       CommandLine.load_dialect_plugin "d.so" true;
       CommandLine.load_pass_plugin "b.so" true]
      (QEConfigCLOptions.init false) in
  let config' :=
    (CLIConfigBuilder.populateConfig (CommandLine.storage p) QEConfig_default).2 in
  passPlugins config' = ["a.so"; "b.so"]
  /\ getPassPlugins config' = ["d.so"]
  /\ CommandLine.errs p = [CommandLine.passPluginWarning "a.so"]
  /\ CommandLine.errorParsing p = false.
Proof.
  intros p config'.
  destruct (parseCommandLine_plugins true false
              [CommandLine.load_pass_plugin "a.so" false;
               CommandLine.load_dialect_plugin "d.so" true;
               CommandLine.load_pass_plugin "b.so" true] QEConfig_default)
    as (_ & _ & Herrs & Hpass & Hget & Hok).
  split_and!.
  - etrans; [exact Hpass | reflexivity].
  - etrans; [exact Hget | reflexivity].
  - etrans; [exact Herrs | reflexivity].
  - apply Hok. by repeat constructor.
Defined.

(** ** Explicit kinds and the two verbosity vocabularies *)

Section ExplicitKinds.

Context `{ExtensionTables}.

(** X14: a kind named with [-X] or [--emit] is final. Each name of the
    two tables is accepted and stores its kind, which is never
    [Undetected]; afterwards [computeInputType], respectively
    [computeOutputType], succeeds for every file name and leaves the
    option storage as it is. An argument outside the table is rejected and
    leaves the storage unchanged. *)
Theorem explicit_kind_is_final (registered : bool) (p : CommandLine.Parse) :
  (forall name type,
     (name, type) ∈ CommandLine.inputTypeValues ->
     let p' := CommandLine.provide registered (CommandLine.X name) p in
     CommandLine.errorParsing p' = CommandLine.errorParsing p
     /\ inputType (CommandLine.storage p') = type
     /\ forall inputFilename,
          QEConfigCLOptions.computeInputType inputFilename
            (CommandLine.storage p')
          = (success, CommandLine.storage p'))
  /\ (forall name action,
     (name, action) ∈ CommandLine.emitActionValues ->
     let p' := CommandLine.provide registered (CommandLine.emit name) p in
     CommandLine.errorParsing p' = CommandLine.errorParsing p
     /\ emitAction (CommandLine.storage p') = action
     /\ forall outputFilename,
          (QEConfigCLOptions.computeOutputType outputFilename
             (CommandLine.storage p')).1
          = (success, CommandLine.storage p'))
  /\ (forall arg,
     CommandLine.findValue CommandLine.inputTypeValues arg = None ->
     CommandLine.provide registered (CommandLine.X arg) p = CommandLine.reject p)
  /\ (forall arg,
     CommandLine.findValue CommandLine.emitActionValues arg = None ->
     CommandLine.provide registered (CommandLine.emit arg) p
     = CommandLine.reject p).
Proof.
  split_and!.
  - intros name type Hin p'. subst p'.
    assert (Hfound : CommandLine.findValue CommandLine.inputTypeValues name
                     = Some type /\ type <> InputType.Undetected).
    { unfold CommandLine.inputTypeValues in Hin.
      repeat (apply elem_of_cons in Hin as [Hin | Hin];
              [by simplify_eq |]).
      by apply elem_of_nil in Hin. }
    destruct Hfound as [Hfound Hset].
    cbn [CommandLine.provide]. rewrite Hfound. cbn.
    split_and!; [done .. |].
    intros inputFilename. by apply computeInputType_already_set.
  - intros name action Hin p'. subst p'.
    assert (Hfound : CommandLine.findValue CommandLine.emitActionValues name
                     = Some action /\ action <> EmitAction.Undetected).
    { unfold CommandLine.emitActionValues in Hin.
      repeat (apply elem_of_cons in Hin as [Hin | Hin];
              [by simplify_eq |]).
      by apply elem_of_nil in Hin. }
    destruct Hfound as [Hfound Hset].
    cbn [CommandLine.provide]. rewrite Hfound. cbn.
    split_and!; [done .. |].
    intros outputFilename.
    destruct (computeOutputType_shape outputFilename
                (setEmitAction action (CommandLine.storage p)))
      as (Hsucc & _ & _ & Hsame).
    apply injective_projections; [exact Hsucc | by apply Hsame].
  - intros arg Hnone. cbn [CommandLine.provide]. by rewrite Hnone.
  - intros arg Hnone. cbn [CommandLine.provide]. by rewrite Hnone.
Qed.

End ExplicitKinds.

Lemma explicit_kind_is_final_witness :
  let p :=
    CommandLine.provide true (CommandLine.X "mlir")
      (CommandLine.mkParse false (QEConfigCLOptions.init false) []) in
  inputType (CommandLine.storage p) = InputType.MLIR
  /\ QEConfigCLOptions.computeInputType (H := specExtensionTables) "prog.txt"
       (CommandLine.storage p)
     = (success, CommandLine.storage p).
Proof.
  intros p.
  destruct (explicit_kind_is_final (H := specExtensionTables) true
              (CommandLine.mkParse false (QEConfigCLOptions.init false) []))
    as (Hinput & _).
  destruct (Hinput "mlir" InputType.MLIR) as (_ & Hkind & Hfinal).
  { unfold CommandLine.inputTypeValues. apply list_elem_of_further.
    apply list_elem_of_here. }
  split; [exact Hkind | exact (Hfinal "prog.txt")].
Defined.

Lemma verbosity_vocabularies (s : string) :
  verbosityOfToken s = None
  \/ CommandLine.findValue CommandLine.verbosityValues s = None.
Proof.
  unfold verbosityOfToken.
  destruct (String.eqb_spec s "ERROR") as [-> | _]; [by right |].
  destruct (String.eqb_spec s "WARN") as [-> | _]; [by right |].
  destruct (String.eqb_spec s "INFO") as [-> | _]; [by right |].
  destruct (String.eqb_spec s "DEBUG") as [-> | _]; [by right |].
  by left.
Qed.

(** X15: the environment and the command line spell the verbosity levels
    differently (upper case and lower case) and share no spelling: a value
    of [QEC_VERBOSITY] with which the environment stage succeeds is
    rejected as an argument of [--verbosity], and a value [--verbosity]
    accepts makes the environment stage fail. *)
Theorem verbosity_spellings_disjoint (env : gmap string string)
    (config : QEConfig) (registered : bool) (p : CommandLine.Parse)
    (s : string) :
  env !! "QEC_VERBOSITY" = Some s ->
  ((EnvVarConfigBuilder.populateConfig env config).1 = success ->
   CommandLine.errorParsing
     (CommandLine.provide registered (CommandLine.verbosity s) p) = true)
  /\ (CommandLine.errorParsing p = false ->
      CommandLine.errorParsing
        (CommandLine.provide registered (CommandLine.verbosity s) p) = false ->
      isFailure (EnvVarConfigBuilder.populateConfig env config).1 = true).
Proof.
  intros Hv.
  pose proof (populateVerbosity_cases env
                (EnvVarConfigBuilder.afterNames env config)) as Hcases.
  rewrite Hv in Hcases.
  rewrite populateConfig_steps. unfold andThen.
  cbn [CommandLine.provide].
  destruct (verbosity_vocabularies s) as [Henv | Hcli].
  - rewrite Henv in Hcases. rewrite Hcases. cbn [fst].
    split; [discriminate | done].
  - rewrite Hcli. cbn. split; [done |]. intros _ Habs. discriminate Habs.
Qed.

Lemma verbosity_spellings_disjoint_witness :
  CommandLine.errorParsing
    (CommandLine.provide true (CommandLine.verbosity "DEBUG")
       (CommandLine.mkParse false (QEConfigCLOptions.init false) []))
  = true
  /\ isFailure
       (EnvVarConfigBuilder.populateConfig {[ "QEC_VERBOSITY" := "debug" ]}
          QEConfig_default).1
     = true.
Proof.
  split.
  - destruct (verbosity_spellings_disjoint {[ "QEC_VERBOSITY" := "DEBUG" ]}
                QEConfig_default true
                (CommandLine.mkParse false (QEConfigCLOptions.init false) [])
                "DEBUG") as [Hcli _]; [reflexivity |].
    apply Hcli. reflexivity.
  - destruct (verbosity_spellings_disjoint {[ "QEC_VERBOSITY" := "debug" ]}
                QEConfig_default true
                (CommandLine.mkParse false (QEConfigCLOptions.init false) [])
                "debug") as [_ Henv]; [reflexivity |].
    apply Henv; reflexivity.
Defined.
